(** * NodeAPI: the HTTP client of node_api_client.go

    A shallow embedding of [interpretBody], [do] and the endpoint methods of
    the node REST client, together with the properties of the request and
    response cycle.  The Go runtime pieces the client calls (encoding/json,
    net/http, io/ioutil) are an interface, [GoRuntime]; the client code is
    written against it, and a small reference runtime is given at the end of
    the definitions for closed examples. *)

From stdpp Require Import base option list strings gmap.
From Stdlib Require Import ZArith Ascii String Strings.Byte Lia.

Local Open Scope string_scope.
Local Open Scope Z_scope.

(** ** Errors *)

(** The package-level error variables created with [errors.New].  Go compares
    them by identity, so each variable is a constructor. *)
Inductive sentinel : Type :=
| ErrHTTPBadRequest
| ErrHTTPInternalServerError
| ErrHTTPNotFound
| ErrHTTPUnauthorized
| ErrHTTPUnknownError
| ErrHTTPNotImplemented.

(** The text given to [errors.New] for each variable. *)
Definition sentinel_text (s : sentinel) : string :=
  match s with
  | ErrHTTPBadRequest => "bad request"
  | ErrHTTPInternalServerError => "internal server error"
  | ErrHTTPNotFound => "not found"
  | ErrHTTPUnauthorized => "unauthorized"
  | ErrHTTPUnknownError => "unknown error"
  | ErrHTTPNotImplemented => "operation not implemented/supported/available"
  end.

(** Where an error value that this package did not create comes from. *)
Inductive origin : Type :=
| FromTransport      (* api.HTTPClient.Do *)
| FromJSON           (* json.Marshal, json.Unmarshal *)
| FromRead           (* ioutil.ReadAll *)
| FromNewRequest.    (* http.NewRequest *)

(** Go [error] values as this file sees them: one of its own variables, an
    error handed over by a library, or the result of [fmt.Errorf] with one
    [%w] verb, which keeps the wrapped error beside the formatted text.  A
    library error is taken to be a value of the library's own: it neither is
    nor wraps one of the variables above. *)
Inductive error : Type :=
| Sentinel (s : sentinel)
| External (o : origin) (msg : string)
| wrapError (msg : string) (err : error).

(** [err.Error()]. *)
Definition Error_text (e : error) : string :=
  match e with
  | Sentinel s => sentinel_text s
  | External _ msg => msg
  | wrapError msg _ => msg
  end.

(** [errors.Unwrap]. *)
Definition Unwrap (e : error) : option error :=
  match e with
  | wrapError _ err => Some err
  | _ => None
  end.

#[global] Instance sentinel_eq_dec : EqDecision sentinel.
Proof. solve_decision. Defined.
#[global] Instance origin_eq_dec : EqDecision origin.
Proof. solve_decision. Defined.
#[global] Instance error_eq_dec : EqDecision error.
Proof. solve_decision. Defined.

(** [errors.Is]: walk the chain of wrapped errors looking for [target]. *)
Fixpoint errors_Is (e target : error) : bool :=
  bool_decide (e = target) ||
  match e with
  | wrapError _ err => errors_Is err target
  | _ => false
  end.

(** [fmt.Errorf(prefix + "%w", err)]. *)
Definition Errorf_prefix_w (prefix : string) (err : error) : error :=
  wrapError (prefix ++ Error_text err) err.

(** [fmt.Errorf("%w: url %s, error message: %s", err, url, message)]. *)
Definition Errorf_w_url_message (err : error) (url message : string) : error :=
  wrapError (Error_text err ++ ": url " ++ url ++ ", error message: " ++ message) err.

(** ** HTTP status codes and the status table *)

Definition StatusOK : Z := 200.
Definition StatusCreated : Z := 201.
Definition StatusBadRequest : Z := 400.
Definition StatusUnauthorized : Z := 401.
Definition StatusNotFound : Z := 404.
Definition StatusInternalServerError : Z := 500.
Definition StatusNotImplemented : Z := 501.

Definition httpCodeToErr : gmap Z error :=
  <[StatusBadRequest := Sentinel ErrHTTPBadRequest]>
  (<[StatusInternalServerError := Sentinel ErrHTTPInternalServerError]>
  (<[StatusNotFound := Sentinel ErrHTTPNotFound]>
  (<[StatusUnauthorized := Sentinel ErrHTTPUnauthorized]>
  (<[StatusNotImplemented := Sentinel ErrHTTPNotImplemented]> ∅)))).

Definition contentTypeJSON : string := "application/json".
Definition MethodGet : string := "GET".

(** ** Requests, responses and the values a call decodes into *)

(** A Go slice: [None] is the nil slice, [Some l] a slice with elements [l]. *)
Definition slice (A : Type) : Type := option (list A).

Definition len {A : Type} (s : slice A) : nat :=
  match s with
  | None => 0%nat
  | Some l => List.length l
  end.

Record Request : Type := {
  Method : string;
  URL : string;                        (* req.URL.String() *)
  Header : list (string * string);
  ReqBody : option string
}.

(** [req.Header.Set(key, value)]. *)
Definition Header_Set (req : Request) (key value : string) : Request :=
  {| Method := Method req;
     URL := URL req;
     Header := (key, value) :: filter (λ kv, kv.1 ≠ key) (Header req);
     ReqBody := ReqBody req |}.

(** A response body stream: the bytes a full read yields and, when the read
    breaks off, the message of the error that ends it. *)
Record BodyStream : Type := {
  stream_bytes : string;
  stream_error : option string
}.

Record Response : Type := {
  StatusCode : Z;
  Body : BodyStream;
  Req : Request                        (* res.Request *)
}.

(** What a library call that can fail hands back. *)
Inductive outcome (A : Type) : Type :=
| Ok (a : A)
| Failed (msg : string).
Arguments Ok {A} a.
Arguments Failed {A} msg.

Record NodeAPI : Type := {
  HTTPClient : Request → outcome Response;   (* api.HTTPClient.Do *)
  BaseURL : string
}.

(** [NewNodeAPI]: the optional client is the variadic argument. *)
Definition NewNodeAPI (defaultClient : Request → outcome Response)
    (baseURL : string) (httpClient : list (Request → outcome Response)) : NodeAPI :=
  match httpClient with
  | c :: _ => {| HTTPClient := c; BaseURL := baseURL |}
  | [] => {| HTTPClient := defaultClient; BaseURL := baseURL |}
  end.

Record httperr : Type := {
  Code : Z;
  Message : string
}.

Record httperrresponse : Type := {
  Error : httperr
}.

Record NodeInfoResponse : Type := {
  Name : string;
  Version : string;
  IsHealthy : bool;
  OperatingNetwork : string;
  Peers : Z;
  CoordinatorAddress : string;
  IsSynced : bool;
  LatestMilestoneHash : string;
  LatestMilestoneIndex : Z;
  LatestSolidMilestoneHash : string;
  LatestSolidMilestoneIndex : Z;
  PruningIndex : Z;
  Time : Z;
  Features : slice string
}.

Record NodeTipsResponse : Type := {
  Tip1 : string;
  Tip2 : string
}.

Record NodeObjectReferencedResponse : Type := {
  IsReferencedByMilestone : bool;
  MilestoneIndex : Z;
  MilestoneTimestamp : Z
}.

Record NodeOutputResponse : Type := {
  Address : string;
  Amount : Z;
  Spent : bool
}.

(** The Go values the client hands to the generic cycle.  [JSONNodeMessages]
    is declared outside this file; the client only ever holds its zero value
    ([var res JSONNodeMessages]), which is what [VJSONNodeMessages] stands
    for. *)
Inductive value : Type :=
| VNodeInfoResponse (v : NodeInfoResponse)
| VNodeTipsResponse (v : NodeTipsResponse)
| VReferenced (s : slice NodeObjectReferencedResponse)
| VOutputs (s : slice NodeOutputResponse)
| VJSONNodeMessages.

Definition addr : Type := nat.

(** An [interface{}] argument: the nil interface, a pointer to a heap cell,
    or a copy of a value. *)
Inductive iface : Type :=
| INil
| IPtr (p : addr)
| IVal (v : value).

Record httpokresponse : Type := {
  Data : iface
}.

(** [x == nil] on an interface. *)
Definition is_nil (x : iface) : bool :=
  match x with
  | INil => true
  | _ => false
  end.

(** ** The world a call runs in *)

(** The calls that leave the package, in the order they are made. *)
Inductive event : Type :=
| EvDo (req : Request)
| EvReadAll (b : BodyStream)
| EvClose (b : BodyStream)
| EvUnmarshalOk (data : string) (okRes : httpokresponse)
| EvUnmarshalErr (data : string).

Record World : Type := {
  heap : list value;       (* cells reachable through pointers *)
  trace : list event
}.

Definition M (A : Type) : Type := World → A * World.

#[global] Instance M_ret : MRet M := λ A a w, (a, w).
#[global] Instance M_bind : MBind M :=
  λ A B f m w, let '(a, w') := m w in f a w'.

Definition emit (e : event) : M unit :=
  λ w, (tt, {| heap := heap w; trace := trace w ++ [e] |}).

(** [p := &T{...}]: a fresh cell holding [v]. *)
Definition new (v : value) : M addr :=
  λ w, (List.length (heap w), {| heap := heap w ++ [v]; trace := trace w |}).

(** [defer d] at the head of [body]: [d] runs when [body] has produced the
    function's result. *)
Definition defer {A : Type} (d : M unit) (body : M A) : M A :=
  r ← body; _ ← d; mret r.

(** [ioutil.ReadAll(b)]. *)
Definition ioutil_ReadAll (b : BodyStream) : M (string * option error) :=
  _ ← emit (EvReadAll b);
  mret (stream_bytes b, External FromRead <$> stream_error b).

(** [b.Close()]. *)
Definition Body_Close (b : BodyStream) : M unit := emit (EvClose b).

(** [api.HTTPClient.Do(req)]. *)
Definition HTTPClient_Do (api : NodeAPI) (req : Request) : M (outcome Response) :=
  _ ← emit (EvDo req);
  mret (HTTPClient api req).

(** ** The libraries the client calls *)

(** The behaviour of encoding/json and net/http that the client relies on.
    Library failures are reported by their message; the client sees them as
    [External] errors.
    - [json_Marshal v h]: the JSON text of [v], read through the heap [h];
    - [http_NewRequest method url body]: the request, or why it cannot be built;
    - [json_Unmarshal_ok data okRes h]: decode [data] into a success envelope
      whose [Data] is already set; writes go to the heap;
    - [json_Unmarshal_err data errRes]: decode [data] into an error envelope. *)
Class GoRuntime : Type := {
  json_Marshal : iface → list value → outcome string;
  http_NewRequest : string → string → option string → outcome Request;
  json_Unmarshal_ok : string → httpokresponse → list value → option string * list value;
  json_Unmarshal_err : string → httperrresponse → option string * httperrresponse
}.

(** ** Hashes and their text form *)

(** Modelled from the spec: [MessageHashes], [SignedTransactionPayloadHashes]
    and [UTXOInputIDs] are declared outside this file; the spec has them as
    lists of hashes and IDs with a hexadecimal text form, so a hash or ID is
    its bytes here. *)
Definition Hash : Type := list byte.
Definition MessageHashes : Type := list Hash.
Definition SignedTransactionPayloadHashes : Type := list Hash.
Definition UTXOInputIDs : Type := list Hash.

Definition hextable : string := "0123456789abcdef".

Definition hexdigit (n : N) : ascii :=
  match String.get (N.to_nat n) hextable with
  | Some c => c
  | None => "0"%char
  end.

(** [hex.EncodeToString]: two lower-case digits per byte, high nibble first. *)
Fixpoint hex_EncodeToString (src : list byte) : string :=
  match src with
  | [] => ""
  | b :: rest =>
    let n := Byte.to_N b in
    String (hexdigit (n / 16)) (String (hexdigit (n mod 16)) (hex_EncodeToString rest))
  end.

(** Modelled from the spec: [HashesToHex] is declared outside this file; the
    spec has hash lists sent in their hexadecimal text representation, one
    text per hash. *)
Definition HashesToHex (hashes : list Hash) : list string :=
  map hex_EncodeToString hashes.

(** Modelled from the spec: [UTXOInputIDs.ToHex] is declared outside this
    file; the spec has ID lists sent in their hexadecimal text
    representation, one text per ID. *)
Definition UTXOInputIDs_ToHex (utxosID : UTXOInputIDs) : list string :=
  map hex_EncodeToString utxosID.

(** [strings.Join(elems, sep)]. *)
Definition strings_Join (elems : list string) (sep : string) : string :=
  String.concat sep elems.

(** ** The client *)

Definition zero_httperrresponse : httperrresponse :=
  {| Error := {| Code := 0; Message := "" |} |}.

Definition zero_NodeInfoResponse : NodeInfoResponse :=
  {| Name := ""; Version := ""; IsHealthy := false; OperatingNetwork := "";
     Peers := 0; CoordinatorAddress := ""; IsSynced := false;
     LatestMilestoneHash := ""; LatestMilestoneIndex := 0;
     LatestSolidMilestoneHash := ""; LatestSolidMilestoneIndex := 0;
     PruningIndex := 0; Time := 0; Features := None |}.

Definition zero_NodeTipsResponse : NodeTipsResponse :=
  {| Tip1 := ""; Tip2 := "" |}.

Section Client.
Context `{GoRuntime}.

(** [json.Unmarshal(data, okRes)] with [okRes : *httpokresponse]. *)
Definition json_Unmarshal_okRes (data : string) (okRes : httpokresponse)
    : M (option error) :=
  λ w, let '(e, h) := json_Unmarshal_ok data okRes (heap w) in
       (External FromJSON <$> e,
        {| heap := h; trace := trace w ++ [EvUnmarshalOk data okRes] |}).

(** [json.Unmarshal(data, errRes)] with [errRes : *httperrresponse]; the
    second component is [*errRes] after the call. *)
Definition json_Unmarshal_errRes (data : string) (errRes : httperrresponse)
    : M (option error * httperrresponse) :=
  _ ← emit (EvUnmarshalErr data);
  let '(e, r) := json_Unmarshal_err data errRes in
  mret (External FromJSON <$> e, r).

Definition interpretBody (res : Response) (decodeTo : iface) : M (option error) :=
  '(resBody, err) ← ioutil_ReadAll (Body res);
  match err with
  | Some err => mret (Some (Errorf_prefix_w "unable to read response body: " err))
  | None =>
    defer (Body_Close (Body res)) (
      if ((StatusCode res =? StatusOK) || (StatusCode res =? StatusCreated))%bool then
        let okRes := {| Data := decodeTo |} in
        json_Unmarshal_okRes resBody okRes
      else
        let errRes := zero_httperrresponse in
        '(uerr, errRes) ← json_Unmarshal_errRes resBody errRes;
        match uerr with
        | Some err =>
          mret (Some (Errorf_prefix_w "unable to read error from response body: " err))
        | None =>
          let err := match httpCodeToErr !! StatusCode res with
                     | Some err => err
                     | None => Sentinel ErrHTTPUnknownError
                     end in
          mret (Some (Errorf_w_url_message err (URL (Req res)) (Message (Error errRes))))
        end)
  end.

Definition do (api : NodeAPI) (method route : string) (reqObj resObj : iface)
    : M (option error) :=
  (* marshal request object *)
  marshalled ← (if is_nil reqObj then mret (Ok None)
                else λ w, (match json_Marshal reqObj (heap w) with
                           | Ok data => Ok (Some data)
                           | Failed msg => Failed msg
                           end, w));
  match marshalled with
  | Failed msg => mret (Some (External FromJSON msg))
  | Ok data =>
    (* construct request *)
    match http_NewRequest method (BaseURL api ++ route) data with
    | Failed msg => mret (Some (External FromNewRequest msg))
    | Ok req =>
      let req := match data with
                 | Some _ => Header_Set req "Content-Type" contentTypeJSON
                 | None => req
                 end in
      (* make the request *)
      sent ← HTTPClient_Do api req;
      match sent with
      | Failed msg => mret (Some (External FromTransport msg))
      | Ok res =>
        if is_nil resObj then mret None
        else
          (* write response into response object *)
          err ← interpretBody res resObj;
          match err with
          | Some err => mret (Some err)
          | None => mret None
          end
      end
    end
  end.

Definition Info (api : NodeAPI) : M (option addr * option error) :=
  res ← new (VNodeInfoResponse zero_NodeInfoResponse);
  err ← do api MethodGet "/info" INil (IPtr res);
  match err with
  | Some err => mret (None, Some err)
  | None => mret (Some res, None)
  end.

Definition Tips (api : NodeAPI) : M (option addr * option error) :=
  res ← new (VNodeTipsResponse zero_NodeTipsResponse);
  err ← do api MethodGet "/tips" INil (IPtr res);
  match err with
  | Some err => mret (None, Some err)
  | None => mret (Some res, None)
  end.

Definition MessagesByHash_query (hashes : MessageHashes) : string :=
  "/messages/by-hash?hashes=" ++ strings_Join (HashesToHex hashes) ",".

Section Messages.
(** [Message], [JSONNodeMessages] and its method [ToMessages] are declared
    outside this file. *)
Context {Message JSONNodeMessages : Type}.
Variable zero_JSONNodeMessages : JSONNodeMessages.
Variable ToMessages : JSONNodeMessages → slice Message * option error.

Definition MessagesByHash (api : NodeAPI) (hashes : MessageHashes)
    : M (slice Message * option error) :=
  let query := MessagesByHash_query hashes in
  let res := zero_JSONNodeMessages in
  err ← do api MethodGet query INil (IVal VJSONNodeMessages);
  match err with
  | Some err => mret (None, Some err)
  | None => mret (ToMessages res)
  end.
End Messages.

Definition AreMessagesReferencedByMilestone_query (hashes : MessageHashes) : string :=
  "/messages/by-hash/is-referenced-by-milestone?hashes="
  ++ strings_Join (HashesToHex hashes) ",".

Definition AreMessagesReferencedByMilestone (api : NodeAPI) (hashes : MessageHashes)
    : M (slice NodeObjectReferencedResponse * option error) :=
  let query := AreMessagesReferencedByMilestone_query hashes in
  let res : slice NodeObjectReferencedResponse := None in
  err ← do api MethodGet query INil (IVal (VReferenced res));
  match err with
  | Some err => mret (None, Some err)
  | None => mret (res, None)
  end.

Definition AreTransactionsReferencedByMilestone_query
    (hashes : SignedTransactionPayloadHashes) : string :=
  "/transaction-messages/is-confirmed?hashes="
  ++ strings_Join (HashesToHex hashes) ",".

Definition AreTransactionsReferencedByMilestone (api : NodeAPI)
    (hashes : SignedTransactionPayloadHashes)
    : M (slice NodeObjectReferencedResponse * option error) :=
  let query := AreTransactionsReferencedByMilestone_query hashes in
  let res : slice NodeObjectReferencedResponse := None in
  err ← do api MethodGet query INil (IVal (VReferenced res));
  match err with
  | Some err => mret (None, Some err)
  | None => mret (res, None)
  end.

Definition OutputsByHash_query (utxosID : UTXOInputIDs) : string :=
  "/outputs/by-hash?hashes=" ++ strings_Join (UTXOInputIDs_ToHex utxosID) ",".

Definition OutputsByHash (api : NodeAPI) (utxosID : UTXOInputIDs)
    : M (slice NodeOutputResponse * option error) :=
  let query := OutputsByHash_query utxosID in
  let res : slice NodeOutputResponse := None in
  err ← do api MethodGet query INil (IVal (VOutputs res));
  match err with
  | Some err => mret (None, Some err)
  | None => mret (res, None)
  end.

End Client.

(** ** A reference runtime

    An instance of [GoRuntime] that can be run: JSON documents of the subset
    the node API uses (objects, arrays, strings with the two-character
    escapes, integers, [true], [false], [null]) are read and decoded the way
    encoding/json decodes them into the types of this file.  Documents
    outside the subset (fractions, exponents, [\u] escapes) are reported as
    syntax errors, and error messages are shortened; the closed examples
    stay inside the subset.  The general theorems do not depend on this
    instance: they hold for every [GoRuntime]. *)
Module Reference.

#[local] Unset Elimination Schemes.
Inductive json : Type :=
| JNull
| JBool (b : bool)
| JNumber (n : Z)
| JString (s : string)
| JArray (elems : list json)
| JObject (members : list (string * json)).
#[local] Set Elimination Schemes.

Definition quote : ascii := "034"%char.
Definition backslash : ascii := "092"%char.

(** *** Writing *)

Fixpoint digits_of (fuel : nat) (n : N) (acc : string) : string :=
  match fuel with
  | O => acc
  | S fuel' =>
    let acc' := String (ascii_of_N (48 + n mod 10)) acc in
    if (n / 10 =? 0)%N then acc' else digits_of fuel' (n / 10) acc'
  end.

Definition Z_text (z : Z) : string :=
  let n := Z.to_N (Z.abs z) in
  let ds := digits_of (S (N.to_nat (N.log2 n))) n "" in
  if z <? 0 then String "-" ds else ds.

Fixpoint escape (s : string) : string :=
  match s with
  | EmptyString => EmptyString
  | String c rest =>
    if (Ascii.eqb c quote || Ascii.eqb c backslash)%bool
    then String backslash (String c (escape rest))
    else String c (escape rest)
  end.

Definition string_text (s : string) : string :=
  String quote (escape s ++ String quote EmptyString).

Fixpoint json_text (j : json) : string :=
  match j with
  | JNull => "null"
  | JBool true => "true"
  | JBool false => "false"
  | JNumber n => Z_text n
  | JString s => string_text s
  | JArray elems =>
    "[" ++ String.concat "," (map json_text elems) ++ "]"
  | JObject members =>
    "{" ++ String.concat ","
             (map (λ kv, string_text kv.1 ++ ":" ++ json_text kv.2) members) ++ "}"
  end.

(** *** Reading *)

Inductive token : Type :=
| TLBrace | TRBrace | TLBrack | TRBrack | TColon | TComma
| TStr (s : string) | TNum (n : Z) | TTrue | TFalse | TNull.

Definition is_space (c : ascii) : bool :=
  (Ascii.eqb c " " || Ascii.eqb c "009" || Ascii.eqb c "010" || Ascii.eqb c "013")%bool.

Definition is_digit (c : ascii) : bool :=
  let n := N_of_ascii c in ((48 <=? n) && (n <=? 57))%N.

Definition digit_value (c : ascii) : Z := Z.of_N (N_of_ascii c) - 48.

Definition unescape (c : ascii) : option ascii :=
  if Ascii.eqb c quote then Some quote
  else if Ascii.eqb c backslash then Some backslash
  else if Ascii.eqb c "/" then Some "/"%char
  else if Ascii.eqb c "b" then Some "008"%char
  else if Ascii.eqb c "f" then Some "012"%char
  else if Ascii.eqb c "n" then Some "010"%char
  else if Ascii.eqb c "r" then Some "013"%char
  else if Ascii.eqb c "t" then Some "009"%char
  else None.

(** The rest of a string literal, after its opening quote. *)
Fixpoint lex_string (s : string) : option (string * string) :=
  match s with
  | EmptyString => None
  | String c rest =>
    if Ascii.eqb c quote then Some (EmptyString, rest)
    else if Ascii.eqb c backslash then
      match rest with
      | EmptyString => None
      | String e rest' =>
        match unescape e, lex_string rest' with
        | Some c', Some (str, rest'') => Some (String c' str, rest'')
        | _, _ => None
        end
      end
    else if (N_of_ascii c <? 32)%N then None
    else
      match lex_string rest with
      | Some (str, rest') => Some (String c str, rest')
      | None => None
      end
  end.

Fixpoint lex_digits (s : string) (acc : Z) : Z * string :=
  match s with
  | EmptyString => (acc, EmptyString)
  | String c rest =>
    if is_digit c then lex_digits rest (10 * acc + digit_value c) else (acc, s)
  end.

(** An integer literal without its sign: no leading zero, and no fraction
    or exponent behind it. *)
Definition lex_number (s : string) : option (Z * string) :=
  match s with
  | EmptyString => None
  | String c rest =>
    if negb (is_digit c) then None
    else
      let '(n, rest') := if Ascii.eqb c "0" then (0, rest) else lex_digits s 0 in
      match rest' with
      | String d _ =>
        if (is_digit d || Ascii.eqb d "." || Ascii.eqb d "e" || Ascii.eqb d "E")%bool
        then None else Some (n, rest')
      | EmptyString => Some (n, rest')
      end
  end.

Definition strip_prefix (p s : string) : option string :=
  if String.prefix p s
  then Some (String.substring (String.length p) (String.length s - String.length p) s)
  else None.

Fixpoint lex (fuel : nat) (s : string) : option (list token) :=
  match fuel with
  | O => None
  | S fuel' =>
    match s with
    | EmptyString => Some []
    | String c rest =>
      if is_space c then lex fuel' rest
      else if Ascii.eqb c "{" then cons TLBrace <$> lex fuel' rest
      else if Ascii.eqb c "}" then cons TRBrace <$> lex fuel' rest
      else if Ascii.eqb c "[" then cons TLBrack <$> lex fuel' rest
      else if Ascii.eqb c "]" then cons TRBrack <$> lex fuel' rest
      else if Ascii.eqb c ":" then cons TColon <$> lex fuel' rest
      else if Ascii.eqb c "," then cons TComma <$> lex fuel' rest
      else if Ascii.eqb c quote then
        '(str, rest') ← lex_string rest; cons (TStr str) <$> lex fuel' rest'
      else if Ascii.eqb c "-" then
        '(n, rest') ← lex_number rest; cons (TNum (- n)) <$> lex fuel' rest'
      else if is_digit c then
        '(n, rest') ← lex_number s; cons (TNum n) <$> lex fuel' rest'
      else
        match strip_prefix "true" s, strip_prefix "false" s, strip_prefix "null" s with
        | Some rest', _, _ => cons TTrue <$> lex fuel' rest'
        | _, Some rest', _ => cons TFalse <$> lex fuel' rest'
        | _, _, Some rest' => cons TNull <$> lex fuel' rest'
        | _, _, _ => None
        end
    end
  end.

Fixpoint parse_value (fuel : nat) (ts : list token) : option (json * list token) :=
  match fuel with
  | O => None
  | S fuel' =>
    match ts with
    | TNull :: r => Some (JNull, r)
    | TTrue :: r => Some (JBool true, r)
    | TFalse :: r => Some (JBool false, r)
    | TNum n :: r => Some (JNumber n, r)
    | TStr s :: r => Some (JString s, r)
    | TLBrack :: TRBrack :: r => Some (JArray [], r)
    | TLBrack :: r =>
      '(v, r1) ← parse_value fuel' r;
      '(vs, r2) ← parse_elems fuel' r1;
      Some (JArray (v :: vs), r2)
    | TLBrace :: TRBrace :: r => Some (JObject [], r)
    | TLBrace :: TStr k :: TColon :: r =>
      '(v, r1) ← parse_value fuel' r;
      '(ms, r2) ← parse_members fuel' r1;
      Some (JObject ((k, v) :: ms), r2)
    | _ => None
    end
  end
with parse_elems (fuel : nat) (ts : list token) : option (list json * list token) :=
  match fuel with
  | O => None
  | S fuel' =>
    match ts with
    | TRBrack :: r => Some ([], r)
    | TComma :: r =>
      '(v, r1) ← parse_value fuel' r;
      '(vs, r2) ← parse_elems fuel' r1;
      Some (v :: vs, r2)
    | _ => None
    end
  end
with parse_members (fuel : nat) (ts : list token)
    : option (list (string * json) * list token) :=
  match fuel with
  | O => None
  | S fuel' =>
    match ts with
    | TRBrace :: r => Some ([], r)
    | TComma :: TStr k :: TColon :: r =>
      '(v, r1) ← parse_value fuel' r;
      '(ms, r2) ← parse_members fuel' r1;
      Some ((k, v) :: ms, r2)
    | _ => None
    end
  end.

(** One JSON document and nothing after it. *)
Definition parse (data : string) : option json :=
  ts ← lex (S (String.length data)) data;
  '(j, rest) ← parse_value (S (List.length ts)) ts;
  match rest with
  | [] => Some j
  | _ => None
  end.

(** *** Decoding into the types of the client *)

Definition lower (c : ascii) : ascii :=
  let n := N_of_ascii c in
  if ((65 <=? n) && (n <=? 90))%N then ascii_of_N (n + 32) else c.

Fixpoint lower_string (s : string) : string :=
  match s with
  | EmptyString => EmptyString
  | String c rest => String (lower c) (lower_string rest)
  end.

(** Object keys are matched to field names without regard to case. *)
Definition key_matches (key name : string) : bool :=
  String.eqb (lower_string key) (lower_string name).

Definition kind (j : json) : string :=
  match j with
  | JNull => "null"
  | JBool _ => "bool"
  | JNumber _ => "number"
  | JString _ => "string"
  | JArray _ => "array"
  | JObject _ => "object"
  end.

Definition mismatch (j : json) (ty : string) : string :=
  "json: cannot unmarshal " ++ kind j ++ " into Go value of type " ++ ty.

Definition syntax_error : string := "json: syntax error".

(** A decoder takes the JSON value and the Go value already in place and
    gives the Go value afterwards together with the error, if any; on a
    type mismatch the Go value stays as it was. *)
Definition decoder (A : Type) : Type := json → A → A * option string.

Definition first_error (e1 e2 : option string) : option string :=
  match e1 with
  | Some _ => e1
  | None => e2
  end.

Definition dec_string : decoder string :=
  λ j old, match j with
           | JString s => (s, None)
           | JNull => (old, None)
           | _ => (old, Some (mismatch j "string"))
           end.

Definition dec_bool : decoder bool :=
  λ j old, match j with
           | JBool b => (b, None)
           | JNull => (old, None)
           | _ => (old, Some (mismatch j "bool"))
           end.

Definition dec_int : decoder Z :=
  λ j old, match j with
           | JNumber n =>
             if ((- 2 ^ 63 <=? n) && (n <? 2 ^ 63))%bool then (n, None)
             else (old, Some (mismatch j "int"))
           | JNull => (old, None)
           | _ => (old, Some (mismatch j "int"))
           end.

Definition dec_uint64 : decoder Z :=
  λ j old, match j with
           | JNumber n =>
             if ((0 <=? n) && (n <? 2 ^ 64))%bool then (n, None)
             else (old, Some (mismatch j "uint64"))
           | JNull => (old, None)
           | _ => (old, Some (mismatch j "uint64"))
           end.

(** A JSON array becomes a fresh slice, [null] the nil slice. *)
Definition dec_slice {A : Type} (dec : decoder A) (zero : A) (ty : string)
    : decoder (slice A) :=
  λ j old, match j with
           | JArray elems =>
             (Some (map (λ e, (dec e zero).1) elems),
              foldr first_error None (map (λ e, (dec e zero).2) elems))
           | JNull => (None, None)
           | _ => (old, Some (mismatch j ty))
           end.

(** The value of the field [name] after the members [ms] have been decoded
    in order: each member with a matching key is decoded into it. *)
Definition field {A : Type} (dec : decoder A) (name : string)
    (ms : list (string * json)) (old : A) : A :=
  fold_left (λ cur kv, if key_matches kv.1 name then (dec kv.2 cur).1 else cur) ms old.

(** The first error met while the members [ms] are decoded in order;
    [schema] gives, per field name, the error of decoding a value into it. *)
Definition check (schema : list (string * (json → option string)))
    (ms : list (string * json)) : option string :=
  foldr first_error None
    (map (λ kv, match find (λ f, key_matches kv.1 f.1) schema with
                | Some f => f.2 kv.2
                | None => None
                end) ms).

Definition checker {A : Type} (dec : decoder A) (zero : A) : json → option string :=
  λ j, (dec j zero).2.

Definition dec_struct {A : Type} (build : list (string * json) → A → A)
    (schema : list (string * (json → option string))) (ty : string) : decoder A :=
  λ j old, match j with
           | JObject ms => (build ms old, check schema ms)
           | JNull => (old, None)
           | _ => (old, Some (mismatch j ty))
           end.

Definition dec_httperr : decoder httperr :=
  dec_struct
    (λ ms old, {| Code := field dec_int "code" ms (Code old);
                  Message := field dec_string "message" ms (Message old) |})
    [("code", checker dec_int 0); ("message", checker dec_string "")]
    "struct".

Definition dec_httperrresponse : decoder httperrresponse :=
  dec_struct
    (λ ms old, {| Error := field dec_httperr "error" ms (Error old) |})
    [("error", checker dec_httperr (Error zero_httperrresponse))]
    "iota.httperrresponse".

Definition dec_NodeInfoResponse : decoder NodeInfoResponse :=
  dec_struct
    (λ ms old,
     {| Name := field dec_string "name" ms (Name old);
        Version := field dec_string "version" ms (Version old);
        IsHealthy := field dec_bool "isHealthy" ms (IsHealthy old);
        OperatingNetwork := field dec_string "operatingNetwork" ms (OperatingNetwork old);
        Peers := field dec_int "peers" ms (Peers old);
        CoordinatorAddress :=
          field dec_string "coordinatorAddress" ms (CoordinatorAddress old);
        IsSynced := field dec_bool "isSynced" ms (IsSynced old);
        LatestMilestoneHash :=
          field dec_string "latestMilestoneHash" ms (LatestMilestoneHash old);
        LatestMilestoneIndex :=
          field dec_uint64 "latestMilestoneIndex" ms (LatestMilestoneIndex old);
        LatestSolidMilestoneHash :=
          field dec_string "latestSolidMilestoneHash" ms (LatestSolidMilestoneHash old);
        LatestSolidMilestoneIndex :=
          field dec_uint64 "latestSolidMilestoneIndex" ms (LatestSolidMilestoneIndex old);
        PruningIndex := field dec_uint64 "pruningIndex" ms (PruningIndex old);
        Time := field dec_uint64 "time" ms (Time old);
        Features := field (dec_slice dec_string "" "[]string") "features" ms (Features old)
     |})
    [("name", checker dec_string "");
     ("version", checker dec_string "");
     ("isHealthy", checker dec_bool false);
     ("operatingNetwork", checker dec_string "");
     ("peers", checker dec_int 0);
     ("coordinatorAddress", checker dec_string "");
     ("isSynced", checker dec_bool false);
     ("latestMilestoneHash", checker dec_string "");
     ("latestMilestoneIndex", checker dec_uint64 0);
     ("latestSolidMilestoneHash", checker dec_string "");
     ("latestSolidMilestoneIndex", checker dec_uint64 0);
     ("pruningIndex", checker dec_uint64 0);
     ("time", checker dec_uint64 0);
     ("features", checker (dec_slice dec_string "" "[]string") None)]
    "iota.NodeInfoResponse".

Definition dec_NodeTipsResponse : decoder NodeTipsResponse :=
  dec_struct
    (λ ms old, {| Tip1 := field dec_string "tip1" ms (Tip1 old);
                  Tip2 := field dec_string "tip2" ms (Tip2 old) |})
    [("tip1", checker dec_string ""); ("tip2", checker dec_string "")]
    "iota.NodeTipsResponse".

Definition zero_NodeObjectReferencedResponse : NodeObjectReferencedResponse :=
  {| IsReferencedByMilestone := false; MilestoneIndex := 0; MilestoneTimestamp := 0 |}.

Definition dec_NodeObjectReferencedResponse : decoder NodeObjectReferencedResponse :=
  dec_struct
    (λ ms old,
     {| IsReferencedByMilestone :=
          field dec_bool "isReferencedByMilestone" ms (IsReferencedByMilestone old);
        MilestoneIndex := field dec_uint64 "milestoneIndex" ms (MilestoneIndex old);
        MilestoneTimestamp :=
          field dec_uint64 "milestoneTimestamp" ms (MilestoneTimestamp old) |})
    [("isReferencedByMilestone", checker dec_bool false);
     ("milestoneIndex", checker dec_uint64 0);
     ("milestoneTimestamp", checker dec_uint64 0)]
    "iota.NodeObjectReferencedResponse".

Definition zero_NodeOutputResponse : NodeOutputResponse :=
  {| Address := ""; Amount := 0; Spent := false |}.

Definition dec_NodeOutputResponse : decoder NodeOutputResponse :=
  dec_struct
    (λ ms old, {| Address := field dec_string "address" ms (Address old);
                  Amount := field dec_uint64 "amount" ms (Amount old);
                  Spent := field dec_bool "spent" ms (Spent old) |})
    [("address", checker dec_string "");
     ("amount", checker dec_uint64 0);
     ("spent", checker dec_bool false)]
    "iota.NodeOutputResponse".

(** Decoding into a heap cell, by the type of the value it holds.  A cell
    of the externally declared [JSONNodeMessages] is left alone. *)
Definition dec_value : decoder value :=
  λ j v,
  match v with
  | VNodeInfoResponse x =>
    let '(x', e) := dec_NodeInfoResponse j x in (VNodeInfoResponse x', e)
  | VNodeTipsResponse x =>
    let '(x', e) := dec_NodeTipsResponse j x in (VNodeTipsResponse x', e)
  | VReferenced s =>
    let '(s', e) :=
      dec_slice dec_NodeObjectReferencedResponse zero_NodeObjectReferencedResponse
        "[]iota.NodeObjectReferencedResponse" j s in
    (VReferenced s', e)
  | VOutputs s =>
    let '(s', e) :=
      dec_slice dec_NodeOutputResponse zero_NodeOutputResponse
        "[]iota.NodeOutputResponse" j s in
    (VOutputs s', e)
  | VJSONNodeMessages => (v, None)
  end.

(** One member of the success envelope.  A [data] member is decoded through
    [Data] when [Data] holds a pointer; [null] resets [Data] to nil; when
    [Data] holds no pointer the decoded value replaces the content of
    [Data] itself, which lives in the envelope and not in the heap. *)
Definition store_data (st : iface * list value * option string)
    (kv : string * json) : iface * list value * option string :=
  let '(target, h, e) := st in
  if key_matches kv.1 "data" then
    match target, kv.2 with
    | IPtr p, JNull => (INil, h, e)
    | IPtr p, j =>
      match h !! p with
      | Some v =>
        let '(v', e') := dec_value j v in
        (IPtr p, <[p := v']> h, first_error e e')
      | None => (IPtr p, h, e)
      end
    | _, _ => (target, h, e)
    end
  else st.

Definition Unmarshal_ok (data : string) (okRes : httpokresponse) (h : list value)
    : option string * list value :=
  match parse data with
  | None => (Some syntax_error, h)
  | Some (JObject ms) =>
    let '(_, h', e) := fold_left store_data ms (Data okRes, h, None) in (e, h')
  | Some JNull => (None, h)
  | Some j => (Some (mismatch j "iota.httpokresponse"), h)
  end.

Definition Unmarshal_err (data : string) (errRes : httperrresponse)
    : option string * httperrresponse :=
  match parse data with
  | None => (Some syntax_error, errRes)
  | Some j => let '(r, e) := dec_httperrresponse j errRes in (e, r)
  end.

(** *** Encoding and request construction *)

Definition json_of_slice {A : Type} (f : A → json) (s : slice A) : json :=
  match s with
  | None => JNull
  | Some l => JArray (map f l)
  end.

Definition json_of_value (v : value) : option json :=
  match v with
  | VNodeInfoResponse x =>
    Some (JObject
      [("name", JString (Name x));
       ("version", JString (Version x));
       ("isHealthy", JBool (IsHealthy x));
       ("operatingNetwork", JString (OperatingNetwork x));
       ("peers", JNumber (Peers x));
       ("coordinatorAddress", JString (CoordinatorAddress x));
       ("isSynced", JBool (IsSynced x));
       ("latestMilestoneHash", JString (LatestMilestoneHash x));
       ("latestMilestoneIndex", JNumber (LatestMilestoneIndex x));
       ("latestSolidMilestoneHash", JString (LatestSolidMilestoneHash x));
       ("latestSolidMilestoneIndex", JNumber (LatestSolidMilestoneIndex x));
       ("pruningIndex", JNumber (PruningIndex x));
       ("time", JNumber (Time x));
       ("features", json_of_slice JString (Features x))])
  | VNodeTipsResponse x =>
    Some (JObject [("tip1", JString (Tip1 x)); ("tip2", JString (Tip2 x))])
  | VReferenced s =>
    Some (json_of_slice
      (λ x, JObject
         [("isReferencedByMilestone", JBool (IsReferencedByMilestone x));
          ("milestoneIndex", JNumber (MilestoneIndex x));
          ("milestoneTimestamp", JNumber (MilestoneTimestamp x))]) s)
  | VOutputs s =>
    Some (json_of_slice
      (λ x, JObject
         [("address", JString (Address x));
          ("amount", JNumber (Amount x));
          ("spent", JBool (Spent x))]) s)
  | VJSONNodeMessages => None
  end.

Definition Marshal (v : iface) (h : list value) : outcome string :=
  let content := match v with
                 | INil => Some JNull
                 | IPtr p => h !! p ≫= json_of_value
                 | IVal x => json_of_value x
                 end in
  match content with
  | Some j => Ok (json_text j)
  | None => Failed "json: unsupported value"
  end.

Definition is_control (c : ascii) : bool :=
  let n := N_of_ascii c in ((n <? 32) || (n =? 127))%N.

Fixpoint has_control (s : string) : bool :=
  match s with
  | EmptyString => false
  | String c rest => (is_control c || has_control rest)%bool
  end.

Definition is_upper (c : ascii) : bool :=
  let n := N_of_ascii c in ((65 <=? n) && (n <=? 90))%N.

Fixpoint all_upper (s : string) : bool :=
  match s with
  | EmptyString => true
  | String c rest => (is_upper c && all_upper rest)%bool
  end.

(** A request is built for a method made of capital letters (the empty
    method stands for GET) and a URL free of control characters. *)
Definition NewRequest (method url : string) (body : option string) : outcome Request :=
  if negb (all_upper method) then Failed ("net/http: invalid method " ++ method)
  else if has_control url then Failed "net/url: invalid control character in URL"
  else Ok {| Method := if String.eqb method "" then "GET" else method;
             URL := url; Header := []; ReqBody := body |}.

Definition runtime : GoRuntime :=
  {| json_Marshal := Marshal;
     http_NewRequest := NewRequest;
     json_Unmarshal_ok := Unmarshal_ok;
     json_Unmarshal_err := Unmarshal_err |}.

End Reference.

(** ** Mock servers

    Transports for closed examples: a server that answers every request
    with one status and body, a server whose body breaks off while it is
    read, and a transport that cannot connect. *)
Module Mock.

Definition answer (status : Z) (body : string) : Request → outcome Response :=
  λ req, Ok {| StatusCode := status;
               Body := {| stream_bytes := body; stream_error := None |};
               Req := req |}.

Definition broken_body (status : Z) (msg : string) : Request → outcome Response :=
  λ req, Ok {| StatusCode := status;
               Body := {| stream_bytes := ""; stream_error := Some msg |};
               Req := req |}.

Definition refuse (msg : string) : Request → outcome Response :=
  λ _, Failed msg.

Definition node (client : Request → outcome Response) : NodeAPI :=
  NewNodeAPI (refuse "no transport") "http://node:14265" [client].

Definition w0 : World := {| heap := []; trace := [] |}.

(** A world in which the caller already holds a response object, at
    address 0. *)
Definition w1 : World :=
  {| heap := [VNodeInfoResponse zero_NodeInfoResponse]; trace := [] |}.

Definition request (route : string) : Request :=
  {| Method := "GET"; URL := "http://node:14265" ++ route; Header := []; ReqBody := None |}.

Definition response (status : Z) (body : string) (route : string) : Response :=
  {| StatusCode := status;
     Body := {| stream_bytes := body; stream_error := None |};
     Req := request route |}.

(** A 32-byte hash filled with one byte. *)
Definition hash_of (b : byte) : Hash := repeat b 32.

Definition error_body (code : Z) (message : string) : string :=
  Reference.json_text
    (Reference.JObject
       [("error", Reference.JObject [("code", Reference.JNumber code);
                                     ("message", Reference.JString message)])]).

Definition data_body (data : Reference.json) : string :=
  Reference.json_text (Reference.JObject [("data", data)]).

Definition referenced (index timestamp : Z) : Reference.json :=
  Reference.JObject
    [("isReferencedByMilestone", Reference.JBool true);
     ("milestoneIndex", Reference.JNumber index);
     ("milestoneTimestamp", Reference.JNumber timestamp)].

(** The answer of a node to a query for three hashes: three statuses, in
    the order of the hashes. *)
Definition three_statuses : string :=
  data_body
    (Reference.JArray [referenced 11 1600000011; referenced 12 1600000012;
                       referenced 13 1600000013]).

Definition three_hashes : MessageHashes :=
  [hash_of x01; hash_of x02; hash_of x03]%byte.

End Mock.

(** ** What the spec says, in its own terms *)

(** The status table of the spec: 400 bad request, 401 unauthorized, 404 not
    found, 500 internal server error, 501 not implemented, anything else
    unknown error. *)
Definition spec_error_kind (status : Z) : sentinel :=
  if status =? 400 then ErrHTTPBadRequest
  else if status =? 401 then ErrHTTPUnauthorized
  else if status =? 404 then ErrHTTPNotFound
  else if status =? 500 then ErrHTTPInternalServerError
  else if status =? 501 then ErrHTTPNotImplemented
  else ErrHTTPUnknownError.

(** The spec's query value: the texts in input order, a comma between
    neighbours, nothing for the empty list. *)
Fixpoint spec_comma_separated (texts : list string) : string :=
  match texts with
  | [] => ""
  | [t] => t
  | t :: rest => t ++ "," ++ spec_comma_separated rest
  end.

(** The body stream has been read to its end, and closed afterwards. *)
Definition read_then_closed (b : BodyStream) (events : list event) : Prop :=
  ∃ before between after : list event,
    events = (before ++ [EvReadAll b] ++ between ++ [EvClose b] ++ after)%list.

Definition is_decode (e : event) : bool :=
  match e with
  | EvUnmarshalOk _ _ | EvUnmarshalErr _ => true
  | _ => false
  end.

Definition is_read (e : event) : bool :=
  match e with
  | EvReadAll _ => true
  | _ => false
  end.

Definition is_close (e : event) : bool :=
  match e with
  | EvClose _ => true
  | _ => false
  end.

Section Sending.
Context `{GoRuntime}.

(** The first steps of [do]: the request object, if there is one, is
    encoded, the request is built for the base URL followed by the route,
    and a request with a payload is marked as JSON.  [sends ... req] holds
    when these steps succeed and [req] is what goes to the transport. *)
Inductive sends (api : NodeAPI) (method route : string) (h : list value)
    : iface → Request → Prop :=
| sends_bare (req : Request) :
    http_NewRequest method (BaseURL api ++ route) None = Ok req →
    sends api method route h INil req
| sends_payload (reqObj : iface) (data : string) (req : Request) :
    reqObj ≠ INil →
    json_Marshal reqObj h = Ok data →
    http_NewRequest method (BaseURL api ++ route) (Some data) = Ok req →
    sends api method route h reqObj (Header_Set req "Content-Type" contentTypeJSON).

Definition sent (w : World) (req : Request) : World :=
  {| heap := heap w; trace := trace w ++ [EvDo req] |}.

End Sending.

(** ** Notions used to describe calls *)

(** [h.Get(key)] on a request header: the first value stored under [key],
    the empty string when there is none. *)
Fixpoint Header_Get (h : list (string * string)) (key : string) : string :=
  match h with
  | [] => ""
  | (k, v) :: rest => if String.eqb k key then v else Header_Get rest key
  end.

(** A node that answers every request with the status [status] and the body
    stream [body]. *)
Definition answers (api : NodeAPI) (status : Z) (body : BodyStream) : Prop :=
  ∀ req, ∃ res, HTTPClient api req = Ok res ∧ StatusCode res = status ∧ Body res = body.

(** What an endpoint hands back as its error against a node that answers
    [status] with an error envelope carrying [message]: the error of a
    request that could not be built, or the status error of that kind with
    the message at the end of its text. *)
Definition status_failure (status : Z) (message : string) (err : option error) : Prop :=
  ∃ e, err = Some e
    ∧ ((∃ msg, e = External FromNewRequest msg)
       ∨ (Unwrap e = Some (Sentinel (spec_error_kind status))
          ∧ ∃ url, Error_text e =
                   sentinel_text (spec_error_kind status) ++ ": url " ++ url
                   ++ ", error message: " ++ message)).

(** The status a kind stands for: the code of its row in [httpCodeToErr],
    or, for the unknown kind, any code without a row. *)
Definition kind_matches_status (k : sentinel) (status : Z) : Prop :=
  match k with
  | ErrHTTPBadRequest => status = 400
  | ErrHTTPUnauthorized => status = 401
  | ErrHTTPNotFound => status = 404
  | ErrHTTPInternalServerError => status = 500
  | ErrHTTPNotImplemented => status = 501
  | ErrHTTPUnknownError =>
    status ≠ 400 ∧ status ≠ 401 ∧ status ≠ 404 ∧ status ≠ 500 ∧ status ≠ 501
  end.

Section Laws.
Context `{GoRuntime}.

(** Go passes arguments by value: a decoder that is handed a success
    envelope whose [Data] holds no pointer has nothing of the caller's to
    write to.  A runtime with this property leaves the heap alone then. *)
Definition decodes_through_pointers_only : Prop :=
  ∀ data target h,
    (∀ p, target ≠ IPtr p) →
    (json_Unmarshal_ok data {| Data := target |} h).2 = h.

(** The request cycle of an endpoint (a GET without request object)
    succeeds: the request is built, the transport produces a response with
    status 200 or 201, its body is read to the end, and the success envelope
    around [target] decodes without error on the heap [h]. *)
Definition cycle_succeeds (api : NodeAPI) (route : string) (target : iface)
    (h : list value) : Prop :=
  ∃ req res,
    http_NewRequest MethodGet (BaseURL api ++ route) None = Ok req
    ∧ HTTPClient api req = Ok res
    ∧ stream_error (Body res) = None
    ∧ (StatusCode res = 200 ∨ StatusCode res = 201)
    ∧ (json_Unmarshal_ok (stream_bytes (Body res)) {| Data := target |} h).1 = None.

(** The ways the first steps of [do] fail: the request object cannot be
    encoded, or no request can be built for the URL.  [o] tells which
    library reported the failure and [msg] is its message. *)
Inductive preparation_fails (api : NodeAPI) (method route : string) (h : list value)
    : iface → origin → string → Prop :=
| marshal_fails (reqObj : iface) (msg : string) :
    reqObj ≠ INil →
    json_Marshal reqObj h = Failed msg →
    preparation_fails api method route h reqObj FromJSON msg
| request_fails_bare (msg : string) :
    http_NewRequest method (BaseURL api ++ route) None = Failed msg →
    preparation_fails api method route h INil FromNewRequest msg
| request_fails_payload (reqObj : iface) (data msg : string) :
    reqObj ≠ INil →
    json_Marshal reqObj h = Ok data →
    http_NewRequest method (BaseURL api ++ route) (Some data) = Failed msg →
    preparation_fails api method route h reqObj FromNewRequest msg.

End Laws.

(** ** Properties *)

Lemma httpCodeToErr_kind (status : Z) :
  match httpCodeToErr !! status with
  | Some err => err
  | None => Sentinel ErrHTTPUnknownError
  end = Sentinel (spec_error_kind status).
Proof.
  unfold httpCodeToErr, spec_error_kind,
    StatusBadRequest, StatusInternalServerError, StatusNotFound,
    StatusUnauthorized, StatusNotImplemented.
  rewrite !lookup_insert, lookup_empty.
  repeat case_decide; subst; try reflexivity;
    repeat match goal with
           | |- context [?a =? ?b] => destruct (Z.eqb_spec a b); try lia
           end; reflexivity.
Qed.

Lemma errors_Is_wrapped_sentinel (msg : string) (k k' : sentinel) :
  errors_Is (wrapError msg (Sentinel k)) (Sentinel k') = bool_decide (k = k').
Proof.
  simpl. rewrite orb_false_r.
  destruct (decide (k = k')) as [->|Hne].
  - rewrite !bool_decide_eq_true_2; auto.
  - rewrite !bool_decide_eq_false_2; auto. congruence.
Qed.

Lemma errors_Is_wrapped_external (msg msg' : string) (o : origin) (k : sentinel) :
  errors_Is (wrapError msg (External o msg')) (Sentinel k) = false.
Proof.
  reflexivity.
Qed.

Lemma status_not_success (status : Z) :
  status ≠ 200 → status ≠ 201 →
  ((status =? StatusOK) || (status =? StatusCreated))%bool = false.
Proof.
  intros H200 H201. unfold StatusOK, StatusCreated.
  destruct (Z.eqb_spec status 200), (Z.eqb_spec status 201); simpl; congruence.
Qed.

Lemma status_success (status : Z) :
  status = 200 ∨ status = 201 →
  ((status =? StatusOK) || (status =? StatusCreated))%bool = true.
Proof. intros [->| ->]; reflexivity. Qed.

(** The reference decoder writes to the heap only through a pointer held in
    [Data]: for any other [Data] the heap is left as it was. *)
Lemma store_data_no_pointer (ms : list (string * Reference.json)) (target : iface)
    (h : list value) (e : option string) :
  (∀ p, target ≠ IPtr p) →
  fold_left Reference.store_data ms (target, h, e) = (target, h, e).
Proof.
  intros Hnoptr. induction ms as [|kv ms IH]; [reflexivity|].
  simpl.
  destruct (Reference.key_matches kv.1 "data"); [|exact IH].
  destruct target as [|p|v]; [exact IH|by destruct (Hnoptr p)|exact IH].
Qed.

Lemma Unmarshal_ok_no_pointer (data : string) (target : iface) (h : list value) :
  (∀ p, target ≠ IPtr p) →
  (Reference.Unmarshal_ok data {| Data := target |} h).2 = h.
Proof.
  intros Hnoptr. unfold Reference.Unmarshal_ok.
  destruct (Reference.parse data) as [[| | | | |ms]|]; try reflexivity.
  simpl. by rewrite store_data_no_pointer.
Qed.

Section Properties.
Context `{GoRuntime}.

Lemma do_sends api method route reqObj resObj w req :
  sends api method route (heap w) reqObj req →
  do api method route reqObj resObj w =
  match HTTPClient api req with
  | Failed msg => (Some (External FromTransport msg), sent w req)
  | Ok res =>
    if is_nil resObj then (None, sent w req)
    else interpretBody res resObj (sent w req)
  end.
Proof.
  intros Hs. unfold do, mbind, M_bind, mret, M_ret.
  destruct Hs as [req Hreq | reqObj data req Hnil Hm Hreq].
  - simpl. rewrite Hreq. unfold HTTPClient_Do, emit, mbind, M_bind, mret, M_ret.
    fold (sent w req).
    destruct (HTTPClient api req) as [res|msg]; [|reflexivity].
    destruct (is_nil resObj); [reflexivity|].
    destruct (interpretBody res resObj (sent w req)) as [[e|] w']; reflexivity.
  - destruct reqObj; [congruence| |]; simpl; rewrite Hm, Hreq;
      unfold HTTPClient_Do, emit, mbind, M_bind, mret, M_ret;
      match goal with |- context [HTTPClient api ?r] =>
        fold (sent w r); destruct (HTTPClient api r) as [res|msg]; [|reflexivity];
        destruct (is_nil resObj); [reflexivity|];
        destruct (interpretBody res resObj (sent w r)) as [[e|] w']; reflexivity
      end.
Qed.

Lemma do_bare api method route resObj w :
  do api method route INil resObj w =
  match http_NewRequest method (BaseURL api ++ route) None with
  | Failed msg => (Some (External FromNewRequest msg), w)
  | Ok req =>
    match HTTPClient api req with
    | Failed msg => (Some (External FromTransport msg), sent w req)
    | Ok res =>
      if is_nil resObj then (None, sent w req)
      else interpretBody res resObj (sent w req)
    end
  end.
Proof.
  destruct (http_NewRequest method (BaseURL api ++ route) None) as [req|msg] eqn:Hreq.
  - apply do_sends. by constructor.
  - unfold do, mbind, M_bind, mret, M_ret. simpl. by rewrite Hreq.
Qed.

(** [interpretBody] when the body cannot be read to its end: the read error
    comes back wrapped, and the function returns before the deferred close
    is set up. *)
Lemma interpretBody_read_error res decodeTo w msg :
  stream_error (Body res) = Some msg →
  interpretBody res decodeTo w =
  (Some (wrapError ("unable to read response body: " ++ msg) (External FromRead msg)),
   {| heap := heap w; trace := trace w ++ [EvReadAll (Body res)] |}).
Proof.
  intros Hread. unfold interpretBody, ioutil_ReadAll, emit, mbind, M_bind, mret, M_ret.
  rewrite Hread. reflexivity.
Qed.

(** [interpretBody] on status 200 or 201. *)
Lemma interpretBody_success res decodeTo w :
  stream_error (Body res) = None →
  StatusCode res = 200 ∨ StatusCode res = 201 →
  interpretBody res decodeTo w =
  let data := stream_bytes (Body res) in
  let okRes := {| Data := decodeTo |} in
  (External FromJSON <$> (json_Unmarshal_ok data okRes (heap w)).1,
   {| heap := (json_Unmarshal_ok data okRes (heap w)).2;
      trace := trace w ++ [EvReadAll (Body res); EvUnmarshalOk data okRes;
                           EvClose (Body res)] |}).
Proof.
  intros Hread Hstatus.
  unfold interpretBody, ioutil_ReadAll, defer, Body_Close, json_Unmarshal_okRes,
    emit, mbind, M_bind, mret, M_ret.
  rewrite Hread, (status_success _ Hstatus). simpl.
  destruct (json_Unmarshal_ok _ _ _) as [e h]. simpl.
  by rewrite <- !app_assoc.
Qed.

(** [interpretBody] on any other status. *)
Lemma interpretBody_failure res decodeTo w :
  stream_error (Body res) = None →
  StatusCode res ≠ 200 → StatusCode res ≠ 201 →
  interpretBody res decodeTo w =
  let data := stream_bytes (Body res) in
  (Some match json_Unmarshal_err data zero_httperrresponse with
        | (Some msg, _) =>
          wrapError ("unable to read error from response body: " ++ msg)
            (External FromJSON msg)
        | (None, errRes) =>
          let kind := spec_error_kind (StatusCode res) in
          wrapError (sentinel_text kind ++ ": url " ++ URL (Req res)
                     ++ ", error message: " ++ Message (Error errRes))
            (Sentinel kind)
        end,
   {| heap := heap w;
      trace := trace w ++ [EvReadAll (Body res); EvUnmarshalErr data;
                           EvClose (Body res)] |}).
Proof.
  intros Hread H200 H201.
  unfold interpretBody, ioutil_ReadAll, defer, Body_Close, json_Unmarshal_errRes,
    emit, mbind, M_bind, mret, M_ret.
  rewrite Hread, (status_not_success _ H200 H201). simpl.
  destruct (json_Unmarshal_err _ _) as [[msg|] errRes]; simpl.
  - by rewrite <- !app_assoc.
  - rewrite httpCodeToErr_kind. by rewrite <- !app_assoc.
Qed.

Lemma is_nil_false (x : iface) : x ≠ INil → is_nil x = false.
Proof. by destruct x. Qed.

(** A call that reaches the transport and gets a response for a requested
    response object continues in [interpretBody]. *)
Lemma do_response api method route reqObj resObj w req res :
  sends api method route (heap w) reqObj req →
  HTTPClient api req = Ok res →
  resObj ≠ INil →
  do api method route reqObj resObj w = interpretBody res resObj (sent w req).
Proof.
  intros Hs Hres Hobj. rewrite (do_sends _ _ _ _ _ _ _ Hs), Hres.
  by rewrite (is_nil_false _ Hobj).
Qed.

(** C1.  A response whose status is neither 200 nor 201 and whose body
    decodes as an error envelope makes the request cycle return an error of
    the kind the status table gives for that status (400 bad request, 401
    unauthorized, 404 not found, 500 internal server error, 501 not
    implemented, anything else unknown error); the error wraps that kind
    and no other, and its text carries the URL of the response's request
    and the message the server sent. *)
Theorem do_mapped_status_error api method route reqObj resObj w req res errRes :
  sends api method route (heap w) reqObj req →
  HTTPClient api req = Ok res →
  resObj ≠ INil →
  stream_error (Body res) = None →
  StatusCode res ≠ 200 → StatusCode res ≠ 201 →
  json_Unmarshal_err (stream_bytes (Body res)) zero_httperrresponse = (None, errRes) →
  let kind := spec_error_kind (StatusCode res) in
  ∃ err,
    (do api method route reqObj resObj w).1 = Some err
    ∧ Unwrap err = Some (Sentinel kind)
    ∧ (∀ k, errors_Is err (Sentinel k) = bool_decide (k = kind))
    ∧ Error_text err =
      sentinel_text kind ++ ": url " ++ URL (Req res)
      ++ ", error message: " ++ Message (Error errRes).
Proof.
  intros Hs Hres Hobj Hread H200 H201 Hdec kind.
  rewrite (do_response _ _ _ _ _ _ _ _ Hs Hres Hobj).
  rewrite (interpretBody_failure _ _ _ Hread H200 H201). simpl. rewrite Hdec.
  eexists. split; [reflexivity|]. split; [reflexivity|]. split; [|reflexivity].
  intros k. rewrite errors_Is_wrapped_sentinel.
  apply bool_decide_ext. split; intros Heq; symmetry; exact Heq.
Qed.

(** C3.  On status 200 or 201 the body is decoded as a success envelope
    whose [Data] is the response object the caller passed; the outcome of
    that decoding, error or not, is what the call returns.  The trace shows
    the one decoding call and no decoding of an error envelope, a decode
    error is none of the status kinds, and the status enters the result
    nowhere, so 201 and 200 are treated alike. *)
Theorem do_success_status_decodes api method route reqObj resObj w req res :
  sends api method route (heap w) reqObj req →
  HTTPClient api req = Ok res →
  resObj ≠ INil →
  stream_error (Body res) = None →
  StatusCode res = 200 ∨ StatusCode res = 201 →
  let data := stream_bytes (Body res) in
  let okRes := {| Data := resObj |} in
  let decoded := json_Unmarshal_ok data okRes (heap w) in
  do api method route reqObj resObj w =
  (External FromJSON <$> decoded.1,
   {| heap := decoded.2;
      trace := trace w ++ [EvDo req; EvReadAll (Body res); EvUnmarshalOk data okRes;
                           EvClose (Body res)] |})
  ∧ (∀ e k, (do api method route reqObj resObj w).1 = Some e →
            errors_Is e (Sentinel k) = false)
  ∧ (∀ res' w', Body res' = Body res →
                StatusCode res' = 200 ∨ StatusCode res' = 201 →
                interpretBody res' resObj w' = interpretBody res resObj w').
Proof.
  intros Hs Hres Hobj Hread Hstatus data okRes decoded.
  rewrite (do_response _ _ _ _ _ _ _ _ Hs Hres Hobj).
  rewrite (interpretBody_success _ _ _ Hread Hstatus). simpl.
  split; [|split].
  - unfold sent. simpl. by rewrite <- app_assoc.
  - intros e k. fold data okRes. destruct (json_Unmarshal_ok data okRes (heap w)).1;
      simpl; [|discriminate].
    intros [= <-]. reflexivity.
  - intros res' w' Hbody Hstatus'.
    rewrite (interpretBody_success res' _ _) by (by rewrite ?Hbody).
    rewrite (interpretBody_success res _ _) by done.
    by rewrite Hbody.
Qed.

(** C4.  A response whose status is neither 200 nor 201 and whose body does
    not decode as an error envelope makes the call return the error
    "unable to read error from response body", which wraps the decode
    failure and is none of the status kinds. *)
Theorem do_unparsable_error_body api method route reqObj resObj w req res msg errRes :
  sends api method route (heap w) reqObj req →
  HTTPClient api req = Ok res →
  resObj ≠ INil →
  stream_error (Body res) = None →
  StatusCode res ≠ 200 → StatusCode res ≠ 201 →
  json_Unmarshal_err (stream_bytes (Body res)) zero_httperrresponse = (Some msg, errRes) →
  ∃ err,
    (do api method route reqObj resObj w).1 = Some err
    ∧ err = wrapError ("unable to read error from response body: " ++ msg)
              (External FromJSON msg)
    ∧ Unwrap err = Some (External FromJSON msg)
    ∧ (∀ k, errors_Is err (Sentinel k) = false).
Proof.
  intros Hs Hres Hobj Hread H200 H201 Hdec.
  rewrite (do_response _ _ _ _ _ _ _ _ Hs Hres Hobj).
  rewrite (interpretBody_failure _ _ _ Hread H200 H201). simpl. rewrite Hdec.
  eexists. repeat split.
Qed.

(** C5.  When the transport gives no response, the call returns the
    transport's error as it is: nothing is wrapped around it, it is none of
    the status kinds, and after the transport call nothing is read or
    decoded. *)
Theorem do_transport_error api method route reqObj resObj w req msg :
  sends api method route (heap w) reqObj req →
  HTTPClient api req = Failed msg →
  do api method route reqObj resObj w =
  (Some (External FromTransport msg),
   {| heap := heap w; trace := trace w ++ [EvDo req] |})
  ∧ (∀ k, errors_Is (External FromTransport msg) (Sentinel k) = false).
Proof.
  intros Hs Hres. rewrite (do_sends _ _ _ _ _ _ _ Hs), Hres. by split.
Qed.

(** C7.  With no response object requested (a nil [resObj]) the call
    returns success as soon as the transport has produced a response,
    whatever its status and body: the transport call is the only event, so
    the body is neither read nor decoded. *)
Theorem do_no_response_object api method route reqObj w req res :
  sends api method route (heap w) reqObj req →
  HTTPClient api req = Ok res →
  do api method route reqObj INil w =
  (None, {| heap := heap w; trace := trace w ++ [EvDo req] |}).
Proof.
  intros Hs Hres. by rewrite (do_sends _ _ _ _ _ _ _ Hs), Hres.
Qed.

(** C6, as amended.  A call that obtains a response for a requested
    response object, and reads its body to the end, decodes what it read
    and closes the body as its last action: on success, on a decode
    failure and on a mapped status error alike. *)
Theorem do_response_object_body_closed api method route reqObj resObj w req res :
  sends api method route (heap w) reqObj req →
  HTTPClient api req = Ok res →
  resObj ≠ INil →
  stream_error (Body res) = None →
  ∃ decode,
    is_decode decode = true
    ∧ trace (do api method route reqObj resObj w).2 =
      (trace w ++ [EvDo req; EvReadAll (Body res); decode; EvClose (Body res)])%list.
Proof.
  intros Hs Hres Hobj Hread.
  rewrite (do_response _ _ _ _ _ _ _ _ Hs Hres Hobj).
  destruct (decide (StatusCode res = 200 ∨ StatusCode res = 201)) as [Hstatus|Hstatus].
  - rewrite (interpretBody_success _ _ _ Hread Hstatus). simpl.
    eexists. split; [|by rewrite <- app_assoc]. reflexivity.
  - rewrite (interpretBody_failure _ _ _ Hread) by tauto. simpl.
    eexists. split; [|by rewrite <- app_assoc]. reflexivity.
Qed.

(** The three slice endpoints share their shape: the result slice is the
    local [res], which [do] receives as a copy. *)
Lemma AreMessagesReferencedByMilestone_unfold api hashes w :
  AreMessagesReferencedByMilestone api hashes w =
  let r := do api MethodGet (AreMessagesReferencedByMilestone_query hashes) INil
             (IVal (VReferenced None)) w in
  ((None, r.1), r.2).
Proof.
  unfold AreMessagesReferencedByMilestone, mbind, M_bind, mret, M_ret.
  by destruct (do _ _ _ _ _ _) as [[e|] w'].
Qed.

Lemma AreTransactionsReferencedByMilestone_unfold api hashes w :
  AreTransactionsReferencedByMilestone api hashes w =
  let r := do api MethodGet (AreTransactionsReferencedByMilestone_query hashes) INil
             (IVal (VReferenced None)) w in
  ((None, r.1), r.2).
Proof.
  unfold AreTransactionsReferencedByMilestone, mbind, M_bind, mret, M_ret.
  by destruct (do _ _ _ _ _ _) as [[e|] w'].
Qed.

Lemma OutputsByHash_unfold api utxosID w :
  OutputsByHash api utxosID w =
  let r := do api MethodGet (OutputsByHash_query utxosID) INil (IVal (VOutputs None)) w in
  ((None, r.1), r.2).
Proof.
  unfold OutputsByHash, mbind, M_bind, mret, M_ret.
  by destruct (do _ _ _ _ _ _) as [[e|] w'].
Qed.

Lemma MessagesByHash_unfold {Message JSONNodeMessages : Type}
    (zero : JSONNodeMessages) (ToMessages : JSONNodeMessages → slice Message * option error)
    api hashes w :
  MessagesByHash zero ToMessages api hashes w =
  let r := do api MethodGet (MessagesByHash_query hashes) INil (IVal VJSONNodeMessages) w in
  (match r.1 with
   | Some err => (None, Some err)
   | None => ToMessages zero
   end, r.2).
Proof.
  unfold MessagesByHash, mbind, M_bind, mret, M_ret.
  by destruct (do _ _ _ _ _ _) as [[e|] w'].
Qed.

Lemma Info_unfold api w :
  Info api w =
  let res := List.length (heap w) in
  let r := do api MethodGet "/info" INil (IPtr res)
             {| heap := heap w ++ [VNodeInfoResponse zero_NodeInfoResponse];
                trace := trace w |} in
  (match r.1 with
   | Some err => (None, Some err)
   | None => (Some res, None)
   end, r.2).
Proof.
  unfold Info, new, mbind, M_bind, mret, M_ret.
  by destruct (do _ _ _ _ _ _) as [[e|] w'].
Qed.

Lemma Tips_unfold api w :
  Tips api w =
  let res := List.length (heap w) in
  let r := do api MethodGet "/tips" INil (IPtr res)
             {| heap := heap w ++ [VNodeTipsResponse zero_NodeTipsResponse];
                trace := trace w |} in
  (match r.1 with
   | Some err => (None, Some err)
   | None => (Some res, None)
   end, r.2).
Proof.
  unfold Tips, new, mbind, M_bind, mret, M_ret.
  by destruct (do _ _ _ _ _ _) as [[e|] w'].
Qed.

Lemma strings_Join_comma (texts : list string) :
  strings_Join texts "," = spec_comma_separated texts.
Proof.
  unfold strings_Join.
  induction texts as [|t rest IH]; [reflexivity|].
  destruct rest as [|t' rest]; [reflexivity|].
  change (String.concat "," (t :: t' :: rest))
    with (t ++ "," ++ String.concat "," (t' :: rest)).
  by rewrite IH.
Qed.

(** C8.  Each list endpoint builds its route from its fixed path, [?hashes=]
    and the hexadecimal texts of its inputs in input order with commas
    between them, and calls the request cycle with the method GET and that
    route; for the empty input list the route ends after [?hashes=], the
    parameter being sent with an empty value. *)
Theorem list_endpoints_route (api : NodeAPI) (hashes : list Hash) (w : World) :
  let csv := spec_comma_separated (map hex_EncodeToString hashes) in
  let route (path : string) := path ++ "?hashes=" ++ csv in
  (MessagesByHash_query hashes = route "/messages/by-hash"
   ∧ AreMessagesReferencedByMilestone_query hashes =
     route "/messages/by-hash/is-referenced-by-milestone"
   ∧ AreTransactionsReferencedByMilestone_query hashes =
     route "/transaction-messages/is-confirmed"
   ∧ OutputsByHash_query hashes = route "/outputs/by-hash")
  ∧ (∀ (Message JSONNodeMessages : Type) (zero : JSONNodeMessages)
       (ToMessages : JSONNodeMessages → slice Message * option error),
       (MessagesByHash zero ToMessages api hashes w).2 =
       (do api "GET" (route "/messages/by-hash") INil (IVal VJSONNodeMessages) w).2)
  ∧ AreMessagesReferencedByMilestone api hashes w =
    (let r := do api "GET" (route "/messages/by-hash/is-referenced-by-milestone") INil
                (IVal (VReferenced None)) w in ((None, r.1), r.2))
  ∧ AreTransactionsReferencedByMilestone api hashes w =
    (let r := do api "GET" (route "/transaction-messages/is-confirmed") INil
                (IVal (VReferenced None)) w in ((None, r.1), r.2))
  ∧ OutputsByHash api hashes w =
    (let r := do api "GET" (route "/outputs/by-hash") INil
                (IVal (VOutputs None)) w in ((None, r.1), r.2))
  ∧ (hashes = [] → csv = ""
     ∧ MessagesByHash_query hashes = "/messages/by-hash?hashes="
     ∧ AreMessagesReferencedByMilestone_query hashes =
       "/messages/by-hash/is-referenced-by-milestone?hashes="
     ∧ AreTransactionsReferencedByMilestone_query hashes =
       "/transaction-messages/is-confirmed?hashes="
     ∧ OutputsByHash_query hashes = "/outputs/by-hash?hashes=").
Proof.
  intros csv route.
  assert (Hm : MessagesByHash_query hashes = route "/messages/by-hash")
    by (unfold MessagesByHash_query, HashesToHex; by rewrite strings_Join_comma).
  assert (Hr : AreMessagesReferencedByMilestone_query hashes =
               route "/messages/by-hash/is-referenced-by-milestone")
    by (unfold AreMessagesReferencedByMilestone_query, HashesToHex;
        by rewrite strings_Join_comma).
  assert (Ht : AreTransactionsReferencedByMilestone_query hashes =
               route "/transaction-messages/is-confirmed")
    by (unfold AreTransactionsReferencedByMilestone_query, HashesToHex;
        by rewrite strings_Join_comma).
  assert (Ho : OutputsByHash_query hashes = route "/outputs/by-hash")
    by (unfold OutputsByHash_query, UTXOInputIDs_ToHex; by rewrite strings_Join_comma).
  split; [done|]. split; [|split; [|split; [|split]]].
  - intros. rewrite MessagesByHash_unfold. simpl. by rewrite Hm.
  - rewrite AreMessagesReferencedByMilestone_unfold. by rewrite Hr.
  - rewrite AreTransactionsReferencedByMilestone_unfold. by rewrite Ht.
  - rewrite OutputsByHash_unfold. by rewrite Ho.
  - intros ->. by repeat split.
Qed.

(** C10.  The three slice endpoints give the request cycle a copy of their
    nil result slice (a value inside the interface, not a pointer) and return
    their own slice, so nothing the cycle decodes can reach it: whenever one
    of them returns a nil error, the slice it returns is nil and has length
    0, whatever the server answered. *)
Theorem slice_endpoints_return_nil (api : NodeAPI) (hashes : list Hash) (w : World) :
  let referenced :=
    do api MethodGet (AreMessagesReferencedByMilestone_query hashes) INil
       (IVal (VReferenced None)) w in
  let confirmed :=
    do api MethodGet (AreTransactionsReferencedByMilestone_query hashes) INil
       (IVal (VReferenced None)) w in
  let outputs :=
    do api MethodGet (OutputsByHash_query hashes) INil (IVal (VOutputs None)) w in
  (AreMessagesReferencedByMilestone api hashes w = ((None, referenced.1), referenced.2)
   ∧ AreTransactionsReferencedByMilestone api hashes w = ((None, confirmed.1), confirmed.2)
   ∧ OutputsByHash api hashes w = ((None, outputs.1), outputs.2))
  ∧ ((AreMessagesReferencedByMilestone api hashes w).1.2 = None →
       (AreMessagesReferencedByMilestone api hashes w).1.1 = None
       ∧ len (AreMessagesReferencedByMilestone api hashes w).1.1 = 0%nat)
  ∧ ((AreTransactionsReferencedByMilestone api hashes w).1.2 = None →
       (AreTransactionsReferencedByMilestone api hashes w).1.1 = None
       ∧ len (AreTransactionsReferencedByMilestone api hashes w).1.1 = 0%nat)
  ∧ ((OutputsByHash api hashes w).1.2 = None →
       (OutputsByHash api hashes w).1.1 = None
       ∧ len (OutputsByHash api hashes w).1.1 = 0%nat).
Proof.
  intros referenced confirmed outputs.
  rewrite AreMessagesReferencedByMilestone_unfold,
    AreTransactionsReferencedByMilestone_unfold, OutputsByHash_unfold.
  by repeat split.
Qed.

End Properties.

(** ** Closed examples on the reference runtime *)

Example hex_EncodeToString_example :
  hex_EncodeToString [x00; x0a; xff; x7b]%byte = "000aff7b".
Proof. reflexivity. Qed.

Example parse_text_example :
  Reference.parse (Mock.error_body 404 "no such route") =
  Some (Reference.JObject
          [("error", Reference.JObject [("code", Reference.JNumber 404);
                                        ("message", Reference.JString "no such route")])]).
Proof. vm_compute. reflexivity. Qed.

(** A 404 with an error envelope, called through [do], is the not-found
    kind, with URL and message in its text. *)
Lemma do_mapped_status_error_witness :
  ∃ err,
    (do (H := Reference.runtime)
        (Mock.node (Mock.answer 404 (Mock.error_body 404 "no such route")))
        "GET" "/info" INil (IPtr 0%nat) Mock.w1).1 = Some err
    ∧ Unwrap err = Some (Sentinel ErrHTTPNotFound)
    ∧ (∀ k, errors_Is err (Sentinel k) = bool_decide (k = ErrHTTPNotFound))
    ∧ Error_text err =
      "not found: url http://node:14265/info, error message: no such route".
Proof.
  refine (do_mapped_status_error (H := Reference.runtime)
            (Mock.node (Mock.answer 404 (Mock.error_body 404 "no such route")))
            "GET" "/info" INil (IPtr 0%nat) Mock.w1 (Mock.request "/info")
            (Mock.response 404 (Mock.error_body 404 "no such route") "/info")
            {| Error := {| Code := 404; Message := "no such route" |} |}
            _ _ _ _ _ _ _).
  - apply sends_bare. reflexivity.
  - reflexivity.
  - discriminate.
  - reflexivity.
  - simpl. lia.
  - simpl. lia.
  - vm_compute. reflexivity.
Defined.

(** A 201 whose envelope carries node information: the call succeeds and the
    caller's response object holds the decoded fields. *)
Lemma do_success_status_decodes_witness :
  let node := Mock.node (Mock.answer 201 (Mock.data_body
                (Reference.JObject [("name", Reference.JString "hornet");
                                    ("version", Reference.JString "0.5.0");
                                    ("isHealthy", Reference.JBool true)]))) in
  let r := do (H := Reference.runtime) node "GET" "/info" INil (IPtr 0%nat) Mock.w1 in
  r.1 = None
  ∧ heap r.2 =
    [VNodeInfoResponse
       {| Name := "hornet"; Version := "0.5.0"; IsHealthy := true;
          OperatingNetwork := ""; Peers := 0; CoordinatorAddress := "";
          IsSynced := false; LatestMilestoneHash := ""; LatestMilestoneIndex := 0;
          LatestSolidMilestoneHash := ""; LatestSolidMilestoneIndex := 0;
          PruningIndex := 0; Time := 0; Features := None |}]
  ∧ existsb is_decode (trace r.2) = true.
Proof.
  intros node r.
  pose proof (proj1 (do_success_status_decodes (H := Reference.runtime)
            node "GET" "/info" INil (IPtr 0%nat) Mock.w1 (Mock.request "/info")
            (Mock.response 201 (Mock.data_body
                (Reference.JObject [("name", Reference.JString "hornet");
                                    ("version", Reference.JString "0.5.0");
                                    ("isHealthy", Reference.JBool true)])) "/info")
            ltac:(apply sends_bare; reflexivity) ltac:(reflexivity)
            ltac:(discriminate) ltac:(reflexivity) ltac:(right; reflexivity))) as Hdo.
  subst r. rewrite Hdo. vm_compute. repeat split.
Defined.

(** A 500 whose body is an HTML page: the error is the one about the
    unreadable error body. *)
Lemma do_unparsable_error_body_witness :
  ∃ err,
    (do (H := Reference.runtime) (Mock.node (Mock.answer 500 "<html>oops</html>"))
        "GET" "/info" INil (IPtr 0%nat) Mock.w1).1 = Some err
    ∧ err = wrapError "unable to read error from response body: json: syntax error"
              (External FromJSON "json: syntax error")
    ∧ Unwrap err = Some (External FromJSON "json: syntax error")
    ∧ (∀ k, errors_Is err (Sentinel k) = false).
Proof.
  refine (do_unparsable_error_body (H := Reference.runtime)
            (Mock.node (Mock.answer 500 "<html>oops</html>"))
            "GET" "/info" INil (IPtr 0%nat) Mock.w1 (Mock.request "/info")
            (Mock.response 500 "<html>oops</html>" "/info")
            "json: syntax error" zero_httperrresponse
            _ _ _ _ _ _ _).
  - apply sends_bare. reflexivity.
  - reflexivity.
  - discriminate.
  - reflexivity.
  - simpl. lia.
  - simpl. lia.
  - vm_compute. reflexivity.
Defined.

(** A transport that cannot connect. *)
Lemma do_transport_error_witness :
  do (H := Reference.runtime) (Mock.node (Mock.refuse "dial tcp: connection refused"))
     "GET" "/info" INil (IPtr 0%nat) Mock.w1 =
  (Some (External FromTransport "dial tcp: connection refused"),
   {| heap := heap Mock.w1; trace := [EvDo (Mock.request "/info")] |})
  ∧ (∀ k, errors_Is (External FromTransport "dial tcp: connection refused") (Sentinel k)
          = false).
Proof.
  refine (do_transport_error (H := Reference.runtime)
            (Mock.node (Mock.refuse "dial tcp: connection refused"))
            "GET" "/info" INil (IPtr 0%nat) Mock.w1 (Mock.request "/info")
            "dial tcp: connection refused" _ _).
  - apply sends_bare. reflexivity.
  - reflexivity.
Defined.

(** A server that answers 500 with an empty body, asked without a response
    object. *)
Lemma do_no_response_object_witness :
  do (H := Reference.runtime) (Mock.node (Mock.answer 500 ""))
     "GET" "/info" INil INil Mock.w0 =
  (None, {| heap := []; trace := [EvDo (Mock.request "/info")] |}).
Proof.
  refine (do_no_response_object (H := Reference.runtime)
            (Mock.node (Mock.answer 500 ""))
            "GET" "/info" INil Mock.w0 (Mock.request "/info")
            (Mock.response 500 "" "/info") _ _).
  - apply sends_bare. reflexivity.
  - reflexivity.
Defined.

Lemma read_then_closed_has_close (b : BodyStream) (events : list event) :
  read_then_closed b events → existsb is_close events = true.
Proof.
  intros (before & between & after & ->).
  rewrite !existsb_app. simpl. by rewrite !orb_true_r.
Qed.

(** C6 fails as stated: a call that asks for no response object obtains a
    response and returns without reading or closing its body. *)
Lemma do_nil_target_body_left_open :
  let node := Mock.node (Mock.answer 200 (Mock.data_body Reference.JNull)) in
  let res := Mock.response 200 (Mock.data_body Reference.JNull) "/info" in
  let r := do (H := Reference.runtime) node "GET" "/info" INil INil Mock.w0 in
  sends (H := Reference.runtime) node "GET" "/info" (heap Mock.w0) INil (Mock.request "/info")
  ∧ HTTPClient node (Mock.request "/info") = Ok res
  ∧ r.1 = None
  ∧ existsb is_read (trace r.2) = false
  ∧ existsb is_close (trace r.2) = false
  ∧ ¬ read_then_closed (Body res) (trace r.2).
Proof.
  intros node res r. split; [apply sends_bare; reflexivity|].
  repeat split.
  intros Hclosed. apply read_then_closed_has_close in Hclosed.
  vm_compute in Hclosed. discriminate.
Qed.

(** A 404 with an error envelope and a response object: read, decoded,
    closed. *)
Lemma do_response_object_body_closed_witness :
  let body := Mock.error_body 404 "no such route" in
  let res := Mock.response 404 body "/info" in
  ∃ decode,
    is_decode decode = true
    ∧ trace (do (H := Reference.runtime) (Mock.node (Mock.answer 404 body))
               "GET" "/info" INil (IPtr 0%nat) Mock.w1).2 =
      [EvDo (Mock.request "/info"); EvReadAll (Body res); decode; EvClose (Body res)].
Proof.
  refine (do_response_object_body_closed (H := Reference.runtime)
            (Mock.node (Mock.answer 404 (Mock.error_body 404 "no such route")))
            "GET" "/info" INil (IPtr 0%nat) Mock.w1 (Mock.request "/info")
            (Mock.response 404 (Mock.error_body 404 "no such route") "/info")
            _ _ _ _).
  - apply sends_bare. reflexivity.
  - reflexivity.
  - discriminate.
  - reflexivity.
Defined.

(** C2 at three hashes.  The node answers 200 with three statuses; the
    method returns no error and the nil slice, of length 0 and not 3.  The
    same answer decoded through a pointer to the slice, the way [Info] and
    [Tips] pass their response object, yields the three statuses in order. *)
Theorem AreMessagesReferencedByMilestone_three_hashes :
  let node := Mock.node (Mock.answer 200 Mock.three_statuses) in
  let r := AreMessagesReferencedByMilestone (H := Reference.runtime) node Mock.three_hashes Mock.w0 in
  r.1 = (None, None)
  ∧ len r.1.1 = 0%nat
  ∧ len r.1.1 ≠ List.length Mock.three_hashes
  ∧ let by_pointer :=
      do (H := Reference.runtime) node MethodGet
         (AreMessagesReferencedByMilestone_query Mock.three_hashes) INil (IPtr 0%nat)
         {| heap := [VReferenced None]; trace := [] |} in
    by_pointer.1 = None
    ∧ heap by_pointer.2 =
      [VReferenced (Some [ {| IsReferencedByMilestone := true; MilestoneIndex := 11;
                              MilestoneTimestamp := 1600000011 |};
                           {| IsReferencedByMilestone := true; MilestoneIndex := 12;
                              MilestoneTimestamp := 1600000012 |};
                           {| IsReferencedByMilestone := true; MilestoneIndex := 13;
                              MilestoneTimestamp := 1600000013 |} ])].
Proof.
  vm_compute. repeat split. discriminate.
Qed.

(** The slice endpoints against a node that answers 200 with three
    statuses: no error, nil slice. *)
Lemma slice_endpoints_return_nil_witness :
  let node := Mock.node (Mock.answer 200 Mock.three_statuses) in
  let r := AreMessagesReferencedByMilestone (H := Reference.runtime) node Mock.three_hashes Mock.w0 in
  r.1.2 = None ∧ r.1.1 = None ∧ len r.1.1 = 0%nat.
Proof.
  intros node r.
  assert (Herr : r.1.2 = None) by (vm_compute; reflexivity).
  split; [exact Herr|].
  exact (proj1 (proj2 (slice_endpoints_return_nil (H := Reference.runtime)
                         node Mock.three_hashes Mock.w0)) Herr).
Defined.

(** The route of a list endpoint for three hashes, and for none. *)
Example AreMessagesReferencedByMilestone_query_example :
  AreMessagesReferencedByMilestone_query [[x01; xab]; [xff]; [x00; x10]]%byte =
  "/messages/by-hash/is-referenced-by-milestone?hashes=01ab,ff,0010"
  ∧ OutputsByHash_query [] = "/outputs/by-hash?hashes=".
Proof. split; reflexivity. Qed.

(** [Info] against a node that answers 200, and against one that answers
    404: a pointer and no error, or no pointer and the not-found error. *)
Example Info_example :
  (Info (H := Reference.runtime)
     (Mock.node (Mock.answer 200 (Mock.data_body
        (Reference.JObject [("name", Reference.JString "hornet")])))) Mock.w0).1
  = (Some 0%nat, None)
  ∧ (Info (H := Reference.runtime)
       (Mock.node (Mock.answer 404 (Mock.error_body 404 "no such route"))) Mock.w0).1
    = (None, Some (wrapError
                     "not found: url http://node:14265/info, error message: no such route"
                     (Sentinel ErrHTTPNotFound))).
Proof. split; vm_compute; reflexivity. Qed.

(** A body that breaks off while it is read: the read error comes back
    wrapped, and no close follows the read. *)
Example do_broken_body_example :
  let r := do (H := Reference.runtime) (Mock.node (Mock.broken_body 200 "unexpected EOF"))
              "GET" "/info" INil (IPtr 0%nat) Mock.w1 in
  r.1 = Some (wrapError "unable to read response body: unexpected EOF"
                (External FromRead "unexpected EOF"))
  ∧ existsb is_read (trace r.2) = true
  ∧ existsb is_close (trace r.2) = false.
Proof. vm_compute. repeat split. Qed.

(** The request a list endpoint sends: GET on the base URL followed by the
    route. *)
Example OutputsByHash_request_example :
  head (trace (OutputsByHash (H := Reference.runtime)
                 (Mock.node (Mock.answer 200 (Mock.data_body (Reference.JArray []))))
                 [[x01; xab]; [xff]]%byte Mock.w0).2)
  = Some (EvDo {| Method := "GET";
                  URL := "http://node:14265/outputs/by-hash?hashes=01ab,ff";
                  Header := []; ReqBody := None |}).
Proof. vm_compute. reflexivity. Qed.

(** The status table, row by row, with 418 as a status outside it. *)
Example status_table_example :
  httpCodeToErr !! 400 = Some (Sentinel ErrHTTPBadRequest)
  ∧ httpCodeToErr !! 401 = Some (Sentinel ErrHTTPUnauthorized)
  ∧ httpCodeToErr !! 404 = Some (Sentinel ErrHTTPNotFound)
  ∧ httpCodeToErr !! 500 = Some (Sentinel ErrHTTPInternalServerError)
  ∧ httpCodeToErr !! 501 = Some (Sentinel ErrHTTPNotImplemented)
  ∧ httpCodeToErr !! 418 = None
  ∧ spec_error_kind 418 = ErrHTTPUnknownError.
Proof. vm_compute. repeat split. Qed.

(** ** Further properties of the client *)

Lemma spec_error_kind_matches (status : Z) :
  kind_matches_status (spec_error_kind status) status.
Proof.
  unfold spec_error_kind.
  repeat match goal with
         | |- context [?a =? ?b] => destruct (Z.eqb_spec a b); [subst; simpl; lia|]
         end.
  simpl. lia.
Qed.

Lemma kind_matches_status_unique (k : sentinel) (status : Z) :
  kind_matches_status k status → k = spec_error_kind status.
Proof.
  unfold spec_error_kind. destruct k; simpl.
  all: try (intros ->; reflexivity).
  intros (H400 & H401 & H404 & H500 & H501).
  repeat match goal with
         | |- context [?a =? ?b] => destruct (Z.eqb_spec a b); [lia|]
         end.
  reflexivity.
Qed.

(** X1.  The status table has one row per kind: a status has a row exactly
    when it is 400, 401, 404, 500 or 501, the row holds the error variable of
    that status and never the unknown-error variable, no two statuses share
    an error, and the texts of the six error variables are pairwise
    different. *)
Theorem httpCodeToErr_rows :
  (∀ status e,
     httpCodeToErr !! status = Some e ↔
     ∃ k, e = Sentinel k ∧ k ≠ ErrHTTPUnknownError ∧ kind_matches_status k status)
  ∧ (∀ s1 s2 e,
       httpCodeToErr !! s1 = Some e → httpCodeToErr !! s2 = Some e → s1 = s2)
  ∧ (∀ k1 k2, sentinel_text k1 = sentinel_text k2 → k1 = k2).
Proof.
  assert (Hrows : ∀ status e,
     httpCodeToErr !! status = Some e ↔
     ∃ k, e = Sentinel k ∧ k ≠ ErrHTTPUnknownError ∧ kind_matches_status k status).
  { intros status e.
    unfold httpCodeToErr, StatusBadRequest, StatusInternalServerError, StatusNotFound,
      StatusUnauthorized, StatusNotImplemented.
    rewrite !lookup_insert, lookup_empty.
    split.
    - repeat case_decide; subst; intros [= <-]; eexists; (split; [reflexivity|]);
        (split; [discriminate|reflexivity]).
    - intros (k & -> & Hk & Hm).
      destruct k; simpl in Hm; try congruence; subst; reflexivity. }
  split; [exact Hrows|]. split.
  - intros s1 s2 e H1 H2.
    apply Hrows in H1 as (k1 & -> & Hk1 & Hm1).
    apply Hrows in H2 as (k2 & [= <-] & _ & Hm2).
    destruct k1; simpl in *; congruence.
  - intros k1 k2. destruct k1, k2; simpl; intros Ht; try reflexivity; discriminate Ht.
Qed.

Lemma Header_Get_filter_ne (h : list (string * string)) (key key' : string) :
  key' ≠ key →
  Header_Get (filter (λ kv, kv.1 ≠ key) h) key' = Header_Get h key'.
Proof.
  intros Hne. induction h as [|[k v] rest IH]; [reflexivity|].
  rewrite filter_cons. destruct (decide ((k, v).1 ≠ key)) as [Hk|Hk]; simpl in *.
  - by rewrite IH.
  - rewrite IH. destruct (String.eqb_spec k key'); [|reflexivity].
    subst. destruct Hk. congruence.
Qed.

(** [req.Header.Set] stores the value under its key and leaves the values of
    all other keys, the method, the URL and the body as they were. *)
Lemma Header_Set_spec (req : Request) (key value : string) :
  Header_Get (Header (Header_Set req key value)) key = value
  ∧ (∀ key', key' ≠ key →
             Header_Get (Header (Header_Set req key value)) key' = Header_Get (Header req) key')
  ∧ Method (Header_Set req key value) = Method req
  ∧ URL (Header_Set req key value) = URL req
  ∧ ReqBody (Header_Set req key value) = ReqBody req.
Proof.
  repeat split.
  - simpl. by rewrite String.eqb_refl.
  - intros key' Hne. simpl. destruct (String.eqb_spec key key'); [congruence|].
    by apply Header_Get_filter_ne.
Qed.

Section Coverage.
Context `{GoRuntime}.

Lemma do_prepared_or_not api method route reqObj w :
  (∃ req, sends api method route (heap w) reqObj req)
  ∨ (∃ o msg, preparation_fails api method route (heap w) reqObj o msg).
Proof.
  assert (reqObj = INil ∨ reqObj ≠ INil) as [->|Hobj]
    by (destruct reqObj; [by left|by right|by right]).
  - destruct (http_NewRequest method (BaseURL api ++ route) None) as [req|msg] eqn:Hreq.
    + left. eexists. by constructor.
    + right. do 2 eexists. by apply request_fails_bare.
  - destruct (json_Marshal reqObj (heap w)) as [data|msg] eqn:Hm.
    + destruct (http_NewRequest method (BaseURL api ++ route) (Some data))
        as [req|msg] eqn:Hreq.
      * left. eexists. by eapply sends_payload.
      * right. do 2 eexists. by eapply request_fails_payload.
    + right. do 2 eexists. by apply marshal_fails.
Qed.

Lemma do_unprepared api method route reqObj resObj w o msg :
  preparation_fails api method route (heap w) reqObj o msg →
  do api method route reqObj resObj w = (Some (External o msg), w).
Proof.
  intros Hf. unfold do, mbind, M_bind, mret, M_ret.
  destruct Hf as [reqObj msg Hobj Hm | msg Hreq | reqObj data msg Hobj Hm Hreq].
  - destruct reqObj; [congruence| |]; simpl; by rewrite Hm.
  - simpl. by rewrite Hreq.
  - destruct reqObj; [congruence| |]; simpl; by rewrite Hm, Hreq.
Qed.

(** What [interpretBody] does, path by path. *)
Lemma interpretBody_paths res decodeTo w :
  let b := Body res in
  let data := stream_bytes b in
  (∃ msg, stream_error b = Some msg
     ∧ interpretBody res decodeTo w =
       (Some (wrapError ("unable to read response body: " ++ msg) (External FromRead msg)),
        {| heap := heap w; trace := trace w ++ [EvReadAll b] |}))
  ∨ (stream_error b = None ∧ (StatusCode res = 200 ∨ StatusCode res = 201)
     ∧ interpretBody res decodeTo w =
       (External FromJSON <$> (json_Unmarshal_ok data {| Data := decodeTo |} (heap w)).1,
        {| heap := (json_Unmarshal_ok data {| Data := decodeTo |} (heap w)).2;
           trace := trace w ++ [EvReadAll b; EvUnmarshalOk data {| Data := decodeTo |};
                                EvClose b] |}))
  ∨ (stream_error b = None ∧ StatusCode res ≠ 200 ∧ StatusCode res ≠ 201
     ∧ ∃ err, interpretBody res decodeTo w =
              (Some err,
               {| heap := heap w;
                  trace := trace w ++ [EvReadAll b; EvUnmarshalErr data; EvClose b] |})
         ∧ match json_Unmarshal_err data zero_httperrresponse with
           | (Some msg, _) =>
             err = wrapError ("unable to read error from response body: " ++ msg)
                     (External FromJSON msg)
           | (None, errRes) =>
             err = wrapError (sentinel_text (spec_error_kind (StatusCode res))
                              ++ ": url " ++ URL (Req res)
                              ++ ", error message: " ++ Message (Error errRes))
                     (Sentinel (spec_error_kind (StatusCode res)))
           end).
Proof.
  intros b data.
  destruct (stream_error b) as [msg|] eqn:Hread.
  - left. eexists. split; [reflexivity|]. by apply interpretBody_read_error.
  - right.
    destruct (decide (StatusCode res = 200 ∨ StatusCode res = 201)) as [Hs|Hs].
    + left. split; [reflexivity|]. split; [exact Hs|].
      by apply interpretBody_success.
    + right. split; [reflexivity|]. split; [tauto|]. split; [tauto|].
      rewrite (interpretBody_failure res decodeTo w Hread) by tauto. simpl.
      eexists. split; [reflexivity|].
      fold b data. by destruct (json_Unmarshal_err data zero_httperrresponse) as [[msg|] r].
Qed.

(** X2.  When the request cannot be prepared, because the request object
    does not encode or because no request can be built for the base URL
    followed by the route, [do] returns the library's error as it is and
    does nothing else: no transport call is made and the heap is as before. *)
Theorem do_preparation_error api method route reqObj resObj w o msg :
  preparation_fails api method route (heap w) reqObj o msg →
  do api method route reqObj resObj w = (Some (External o msg), w)
  ∧ (∀ k, errors_Is (External o msg) (Sentinel k) = false).
Proof.
  intros Hf. split; [by apply do_unprepared|]. intros k. by destruct o.
Qed.

(** X3.  A call with a request object sends the request built for the
    encoded object with its Content-Type header set to application/json; the
    other headers, the method, the URL and the body are those of the request
    as it was built. *)
Theorem do_payload_content_type api method route reqObj resObj w data req0 :
  reqObj ≠ INil →
  json_Marshal reqObj (heap w) = Ok data →
  http_NewRequest method (BaseURL api ++ route) (Some data) = Ok req0 →
  ∃ req rest,
    trace (do api method route reqObj resObj w).2 = (trace w ++ EvDo req :: rest)%list
    ∧ Header_Get (Header req) "Content-Type" = "application/json"
    ∧ (∀ key, key ≠ "Content-Type" →
              Header_Get (Header req) key = Header_Get (Header req0) key)
    ∧ Method req = Method req0 ∧ URL req = URL req0 ∧ ReqBody req = ReqBody req0.
Proof.
  intros Hobj Hm Hreq.
  pose proof (sends_payload api method route (heap w) reqObj data req0 Hobj Hm Hreq) as Hs.
  destruct (Header_Set_spec req0 "Content-Type" contentTypeJSON)
    as (Hget & Hother & Hmethod & Hurl & Hbody).
  exists (Header_Set req0 "Content-Type" contentTypeJSON).
  assert (∃ rest, trace (do api method route reqObj resObj w).2 =
                  (trace w ++ EvDo (Header_Set req0 "Content-Type" contentTypeJSON) :: rest)%list)
    as [rest Htrace].
  { rewrite (do_sends _ _ _ _ _ _ _ Hs).
    destruct (HTTPClient api _) as [res|m]; [|by exists []].
    destruct (is_nil resObj); [by exists []|].
    destruct (interpretBody_paths res resObj
                (sent w (Header_Set req0 "Content-Type" contentTypeJSON)))
      as [(m & _ & ->)|[(_ & _ & ->)|(_ & _ & _ & err & -> & _)]];
      simpl; rewrite <- app_assoc; eexists; reflexivity. }
  exists rest. repeat split; try done.
Qed.

(** X4.  When the body of the response cannot be read to its end, the call
    returns "unable to read response body" wrapped around the read error,
    whatever the status: nothing is decoded, the heap is untouched, the error
    is none of the status kinds, and the call returns without closing the
    body. *)
Theorem do_read_error api method route reqObj resObj w req res msg :
  sends api method route (heap w) reqObj req →
  HTTPClient api req = Ok res →
  resObj ≠ INil →
  stream_error (Body res) = Some msg →
  do api method route reqObj resObj w =
  (Some (wrapError ("unable to read response body: " ++ msg) (External FromRead msg)),
   {| heap := heap w; trace := trace w ++ [EvDo req; EvReadAll (Body res)] |})
  ∧ (∀ k, errors_Is (wrapError ("unable to read response body: " ++ msg)
                       (External FromRead msg)) (Sentinel k) = false).
Proof.
  intros Hs Hres Hobj Hread.
  rewrite (do_response _ _ _ _ _ _ _ _ Hs Hres Hobj).
  rewrite (interpretBody_read_error _ _ _ _ Hread). simpl.
  split; [by rewrite <- app_assoc|done].
Qed.

(** X5.  The heap changes in one case only: the call obtained a response
    with status 200 or 201 for a requested response object, read its body,
    and the decoder of the success envelope wrote to the heap.  On every
    other path, errors of all kinds included, the heap is as before. *)
Theorem do_heap_frame api method route reqObj resObj w :
  heap (do api method route reqObj resObj w).2 = heap w
  ∨ ∃ req res,
      sends api method route (heap w) reqObj req
      ∧ HTTPClient api req = Ok res
      ∧ resObj ≠ INil
      ∧ stream_error (Body res) = None
      ∧ (StatusCode res = 200 ∨ StatusCode res = 201)
      ∧ heap (do api method route reqObj resObj w).2 =
        (json_Unmarshal_ok (stream_bytes (Body res)) {| Data := resObj |} (heap w)).2.
Proof.
  destruct (do_prepared_or_not api method route reqObj w) as [[req Hs]|(o & msg & Hf)].
  2: { left. by rewrite (do_unprepared _ _ _ _ resObj _ _ _ Hf). }
  rewrite (do_sends _ _ _ _ resObj _ _ Hs).
  destruct (HTTPClient api req) as [res|m] eqn:Hres; [|by left].
  destruct (is_nil resObj) eqn:Hnil; [by left|].
  assert (resObj ≠ INil) as Hobj by (intros ->; discriminate).
  destruct (interpretBody_paths res resObj (sent w req))
    as [(m & _ & ->)|[(Hread & Hstatus & ->)|(_ & _ & _ & err & -> & _)]];
    [by left| |by left].
  right. exists req, res. by repeat split.
Qed.

(** X6.  A call makes at most one transport call, for a request that was
    prepared, and reads at most one body, that of the response it got; it
    decodes only what it has read, and closes the body only after reading
    and decoding it.  The events a call adds to the trace are none, the
    transport call alone, the transport call and a read, or the transport
    call, a read, one decoding and the close. *)
Theorem do_trace_shape api method route reqObj resObj w :
  ∃ added,
    trace (do api method route reqObj resObj w).2 = (trace w ++ added)%list
    ∧ (added = []
       ∨ ∃ req,
           sends api method route (heap w) reqObj req
           ∧ (added = [EvDo req]
              ∨ ∃ res,
                  HTTPClient api req = Ok res
                  ∧ (added = [EvDo req; EvReadAll (Body res)]
                     ∨ ∃ decode,
                         is_decode decode = true
                         ∧ added = [EvDo req; EvReadAll (Body res); decode;
                                    EvClose (Body res)]))).
Proof.
  destruct (do_prepared_or_not api method route reqObj w) as [[req Hs]|(o & msg & Hf)].
  2: { exists []. rewrite (do_unprepared _ _ _ _ resObj _ _ _ Hf). simpl.
       split; [by rewrite app_nil_r|by left]. }
  rewrite (do_sends _ _ _ _ resObj _ _ Hs).
  destruct (HTTPClient api req) as [res|m] eqn:Hres.
  2: { exists [EvDo req]. split; [done|]. right. exists req. split; [done|by left]. }
  destruct (is_nil resObj).
  { exists [EvDo req]. split; [done|]. right. exists req. split; [done|by left]. }
  destruct (interpretBody_paths res resObj (sent w req))
    as [(m & _ & ->)|[(_ & _ & ->)|(_ & _ & _ & err & -> & _)]]; simpl;
    rewrite <- app_assoc; eexists; (split; [reflexivity|]);
    right; exists req; (split; [done|]); right; exists res; (split; [done|]).
  - by left.
  - right. eexists. split; [|reflexivity]. reflexivity.
  - right. eexists. split; [|reflexivity]. reflexivity.
Qed.

(** X8.  Success has two forms only.  [do] returns a nil error exactly when
    the transport produced a response for the prepared request and either no
    response object was requested, or the status is 200 or 201, the body was
    read to its end and the success envelope decoded without error.  Any
    other status, 202 and 204 included, ends in an error. *)
Theorem do_success_iff api method route reqObj resObj w :
  (do api method route reqObj resObj w).1 = None ↔
  ∃ req res,
    sends api method route (heap w) reqObj req
    ∧ HTTPClient api req = Ok res
    ∧ (resObj = INil
       ∨ (stream_error (Body res) = None
          ∧ (StatusCode res = 200 ∨ StatusCode res = 201)
          ∧ (json_Unmarshal_ok (stream_bytes (Body res)) {| Data := resObj |} (heap w)).1
            = None)).
Proof.
  split.
  - destruct (do_prepared_or_not api method route reqObj w) as [[req Hs]|(o & msg & Hf)].
    2: { by rewrite (do_unprepared _ _ _ _ resObj _ _ _ Hf). }
    rewrite (do_sends _ _ _ _ resObj _ _ Hs).
    destruct (HTTPClient api req) as [res|m] eqn:Hres; [|discriminate].
    destruct (is_nil resObj) eqn:Hnil.
    { intros _. exists req, res. repeat split; try done. left. by destruct resObj. }
    destruct (interpretBody_paths res resObj (sent w req))
      as [(m & _ & ->)|[(Hread & Hstatus & ->)|(_ & _ & _ & e & -> & _)]]; simpl;
      [discriminate| |discriminate].
    intros Hok. exists req, res. repeat split; try done. right. repeat split; try done.
    by destruct (json_Unmarshal_ok _ _ _).1.
  - intros (req & res & Hs & Hres & Hcase).
    rewrite (do_sends _ _ _ _ resObj _ _ Hs), Hres.
    destruct Hcase as [->|(Hread & Hstatus & Hdec)]; [reflexivity|].
    destruct (is_nil resObj); [reflexivity|].
    rewrite (interpretBody_success _ _ _ Hread Hstatus). simpl. by rewrite Hdec.
Qed.

Lemma do_bare_answered api route target w status body errRes :
  answers api status body →
  stream_error body = None →
  status ≠ 200 → status ≠ 201 →
  json_Unmarshal_err (stream_bytes body) zero_httperrresponse = (None, errRes) →
  target ≠ INil →
  status_failure status (Message (Error errRes)) (do api MethodGet route INil target w).1.
Proof.
  intros Hanswers Hread H200 H201 Hdec Htarget. rewrite do_bare.
  destruct (http_NewRequest MethodGet (BaseURL api ++ route) None) as [req|msg].
  2: { eexists. split; [reflexivity|]. left. by eexists. }
  destruct (Hanswers req) as (res & -> & Hstatus & Hbody).
  rewrite (is_nil_false _ Htarget).
  rewrite interpretBody_failure by (by rewrite ?Hbody, ?Hstatus).
  simpl. rewrite Hbody, Hdec, Hstatus.
  eexists. split; [reflexivity|]. right. split; [reflexivity|].
  by eexists.
Qed.

(** X9.  Against a node that answers every request with a status other than
    200 and 201 and an error envelope, every endpoint returns a nil result
    together with an error: the status error of that status, ending in the
    message of the envelope (or the error of a request that could not be
    built). *)
Theorem endpoints_status_error api status body errRes w (hashes : list Hash) :
  answers api status body →
  stream_error body = None →
  status ≠ 200 → status ≠ 201 →
  json_Unmarshal_err (stream_bytes body) zero_httperrresponse = (None, errRes) →
  let failed {A : Type} (r : option A * option error) :=
    r.1 = None ∧ status_failure status (Message (Error errRes)) r.2 in
  failed (Info api w).1
  ∧ failed (Tips api w).1
  ∧ failed (AreMessagesReferencedByMilestone api hashes w).1
  ∧ failed (AreTransactionsReferencedByMilestone api hashes w).1
  ∧ failed (OutputsByHash api hashes w).1
  ∧ (∀ (Message JSONNodeMessages : Type) (zero : JSONNodeMessages)
       (ToMessages : JSONNodeMessages → slice Message * option error),
       failed (MessagesByHash zero ToMessages api hashes w).1).
Proof.
  intros Hanswers Hread H200 H201 Hdec failed.
  assert (Hdo : ∀ route target w', target ≠ INil →
            status_failure status (Message (Error errRes))
              (do api MethodGet route INil target w').1)
    by (intros; by eapply do_bare_answered).
  assert (Hsome : ∀ err : option error,
            status_failure status (Message (Error errRes)) err → ∃ e, err = Some e)
    by (intros err (e & -> & _); by eexists).
  unfold failed. repeat split.
  - rewrite Info_unfold. simpl.
    edestruct Hsome as [e ->]; [apply Hdo; discriminate|]. reflexivity.
  - rewrite Info_unfold. simpl.
    match goal with |- context [do ?a ?m ?r INil ?t ?w'] =>
      pose proof (Hdo r t w' ltac:(discriminate)) as Hf;
      destruct (Hsome _ Hf) as [e He]; rewrite He in *; exact Hf end.
  - rewrite Tips_unfold. simpl.
    edestruct Hsome as [e ->]; [apply Hdo; discriminate|]. reflexivity.
  - rewrite Tips_unfold. simpl.
    match goal with |- context [do ?a ?m ?r INil ?t ?w'] =>
      pose proof (Hdo r t w' ltac:(discriminate)) as Hf;
      destruct (Hsome _ Hf) as [e He]; rewrite He in *; exact Hf end.
  - by rewrite AreMessagesReferencedByMilestone_unfold.
  - rewrite AreMessagesReferencedByMilestone_unfold. simpl. apply Hdo. discriminate.
  - by rewrite AreTransactionsReferencedByMilestone_unfold.
  - rewrite AreTransactionsReferencedByMilestone_unfold. simpl. apply Hdo. discriminate.
  - by rewrite OutputsByHash_unfold.
  - rewrite OutputsByHash_unfold. simpl. apply Hdo. discriminate.
  - rewrite MessagesByHash_unfold. simpl.
    edestruct Hsome as [e ->]; [apply Hdo; discriminate|]. reflexivity.
  - rewrite MessagesByHash_unfold. simpl.
    match goal with |- context [do ?a ?m ?r INil ?t ?w'] =>
      pose proof (Hdo r t w' ltac:(discriminate)) as Hf;
      destruct (Hsome _ Hf) as [e He]; rewrite He in *; exact Hf end.
Qed.

(** X10.  [MessagesByHash] gives the request cycle a copy of its zero-valued
    [res], so what it returns never comes from the node's answer: it is the
    nil slice with the error of the request cycle, or else [ToMessages] of
    the zero value; two calls whose request cycles succeed return the same,
    whatever nodes, hashes and answers they involve. *)
Theorem MessagesByHash_ignores_answer {Message JSONNodeMessages : Type}
    (zero : JSONNodeMessages) (ToMessages : JSONNodeMessages → slice Message * option error)
    api hashes w :
  let cycle := do api MethodGet (MessagesByHash_query hashes) INil (IVal VJSONNodeMessages) w in
  ((MessagesByHash zero ToMessages api hashes w).1 = ToMessages zero ∧ cycle.1 = None
   ∨ ∃ err, (MessagesByHash zero ToMessages api hashes w).1 = (None, Some err)
            ∧ cycle.1 = Some err)
  ∧ (∀ api' hashes' w',
       cycle.1 = None →
       (do api' MethodGet (MessagesByHash_query hashes') INil (IVal VJSONNodeMessages) w').1
       = None →
       (MessagesByHash zero ToMessages api' hashes' w').1
       = (MessagesByHash zero ToMessages api hashes w).1).
Proof.
  intros cycle. split.
  - rewrite MessagesByHash_unfold. fold cycle. simpl.
    destruct cycle.1 as [err|]; [right; by eexists|by left].
  - intros api' hashes' w' Hok Hok'. rewrite !MessagesByHash_unfold. simpl.
    fold cycle. by rewrite Hok, Hok'.
Qed.

Lemma do_value_target_heap api method route target w :
  decodes_through_pointers_only →
  (∀ p, target ≠ IPtr p) →
  heap (do api method route INil target w).2 = heap w.
Proof.
  intros Hlaw Htarget. rewrite do_bare.
  destruct (http_NewRequest method (BaseURL api ++ route) None) as [req|msg]; [|done].
  destruct (HTTPClient api req) as [res|msg]; [|done].
  destruct (is_nil target); [done|].
  destruct (interpretBody_paths res target (sent w req))
    as [(m & _ & ->)|[(_ & _ & ->)|(_ & _ & _ & err & -> & _)]]; simpl; try done.
  by apply Hlaw.
Qed.

(** X11.  With a decoder that writes only through pointers, the four
    endpoints that pass their result by value leave the heap exactly as it
    was, on every path: none of them changes any object the caller holds. *)
Theorem value_endpoints_keep_heap api (hashes : list Hash) w :
  decodes_through_pointers_only →
  heap (AreMessagesReferencedByMilestone api hashes w).2 = heap w
  ∧ heap (AreTransactionsReferencedByMilestone api hashes w).2 = heap w
  ∧ heap (OutputsByHash api hashes w).2 = heap w
  ∧ (∀ (Message JSONNodeMessages : Type) (zero : JSONNodeMessages)
       (ToMessages : JSONNodeMessages → slice Message * option error),
       heap (MessagesByHash zero ToMessages api hashes w).2 = heap w).
Proof.
  intros Hlaw.
  rewrite AreMessagesReferencedByMilestone_unfold,
    AreTransactionsReferencedByMilestone_unfold, OutputsByHash_unfold. simpl.
  repeat split; intros; rewrite ?MessagesByHash_unfold; simpl;
    by apply do_value_target_heap.
Qed.

Lemma do_pointer_success api route p w req res :
  http_NewRequest MethodGet (BaseURL api ++ route) None = Ok req →
  HTTPClient api req = Ok res →
  stream_error (Body res) = None →
  StatusCode res = 200 ∨ StatusCode res = 201 →
  let data := stream_bytes (Body res) in
  let decoded := json_Unmarshal_ok data {| Data := IPtr p |} (heap w) in
  do api MethodGet route INil (IPtr p) w =
  (External FromJSON <$> decoded.1,
   {| heap := decoded.2;
      trace := trace w ++ [EvDo req; EvReadAll (Body res);
                           EvUnmarshalOk data {| Data := IPtr p |}; EvClose (Body res)] |}).
Proof.
  intros Hreq Hres Hread Hstatus data decoded.
  rewrite do_bare, Hreq, Hres. simpl.
  rewrite (interpretBody_success _ _ _ Hread Hstatus). simpl.
  by rewrite <- app_assoc.
Qed.

(** X12.  [Info] decodes into a response object of its own: a new heap cell,
    at an address that held nothing before the call, that holds the
    zero-valued [NodeInfoResponse] when the decoder receives it.  On a 200 or
    201 answer the call returns the pointer to that cell if the envelope
    decodes, and the nil pointer with the decode error if it does not; the
    body is read, decoded once and closed. *)
Theorem Info_fresh_object api w req res :
  http_NewRequest MethodGet (BaseURL api ++ "/info") None = Ok req →
  HTTPClient api req = Ok res →
  stream_error (Body res) = None →
  StatusCode res = 200 ∨ StatusCode res = 201 →
  let p := List.length (heap w) in
  let h0 := (heap w ++ [VNodeInfoResponse zero_NodeInfoResponse])%list in
  let data := stream_bytes (Body res) in
  let decoded := json_Unmarshal_ok data {| Data := IPtr p |} h0 in
  heap w !! p = None
  ∧ h0 !! p = Some (VNodeInfoResponse zero_NodeInfoResponse)
  ∧ Info api w =
    (match decoded.1 with
     | Some msg => (None, Some (External FromJSON msg))
     | None => (Some p, None)
     end,
     {| heap := decoded.2;
        trace := trace w ++ [EvDo req; EvReadAll (Body res);
                             EvUnmarshalOk data {| Data := IPtr p |}; EvClose (Body res)] |}).
Proof.
  intros Hreq Hres Hread Hstatus p h0 data decoded.
  split; [by apply lookup_ge_None_2|].
  split; [subst h0 p; by rewrite lookup_app_r, Nat.sub_diag|].
  rewrite Info_unfold. simpl.
  rewrite (do_pointer_success api "/info" _ _ req res Hreq Hres Hread Hstatus). simpl.
  fold p h0 data decoded. by destruct decoded.1.
Qed.

(** X13.  [Tips] decodes into a response object of its own: a new heap cell,
    at an address that held nothing before the call, that holds the
    zero-valued [NodeTipsResponse] when the decoder receives it.  On a 200 or
    201 answer the call returns the pointer to that cell if the envelope
    decodes, and the nil pointer with the decode error if it does not; the
    body is read, decoded once and closed. *)
Theorem Tips_fresh_object api w req res :
  http_NewRequest MethodGet (BaseURL api ++ "/tips") None = Ok req →
  HTTPClient api req = Ok res →
  stream_error (Body res) = None →
  StatusCode res = 200 ∨ StatusCode res = 201 →
  let p := List.length (heap w) in
  let h0 := (heap w ++ [VNodeTipsResponse zero_NodeTipsResponse])%list in
  let data := stream_bytes (Body res) in
  let decoded := json_Unmarshal_ok data {| Data := IPtr p |} h0 in
  heap w !! p = None
  ∧ h0 !! p = Some (VNodeTipsResponse zero_NodeTipsResponse)
  ∧ Tips api w =
    (match decoded.1 with
     | Some msg => (None, Some (External FromJSON msg))
     | None => (Some p, None)
     end,
     {| heap := decoded.2;
        trace := trace w ++ [EvDo req; EvReadAll (Body res);
                             EvUnmarshalOk data {| Data := IPtr p |}; EvClose (Body res)] |}).
Proof.
  intros Hreq Hres Hread Hstatus p h0 data decoded.
  split; [by apply lookup_ge_None_2|].
  split; [subst h0 p; by rewrite lookup_app_r, Nat.sub_diag|].
  rewrite Tips_unfold. simpl.
  rewrite (do_pointer_success api "/tips" _ _ req res Hreq Hres Hread Hstatus). simpl.
  fold p h0 data decoded. by destruct decoded.1.
Qed.

Lemma NewNodeAPI_BaseURL defaultClient baseURL clients :
  BaseURL (NewNodeAPI defaultClient baseURL clients) = baseURL.
Proof. by destruct clients. Qed.

(** X14.  [NewNodeAPI] takes any base URL as it is; a base URL for which no
    request can be built shows at call time: every endpoint of the client
    returns a nil result with the error of the request construction for its
    own URL, makes no transport call, and the endpoints that pass their
    result by value leave the world as it was. *)
Theorem endpoints_unbuildable_request defaultClient baseURL clients
    (msg : string → string) w (hashes : list Hash) :
  (∀ route, http_NewRequest MethodGet (baseURL ++ route) None = Failed (msg route)) →
  let api := NewNodeAPI defaultClient baseURL clients in
  let e (route : string) := External FromNewRequest (msg route) in
  ((Info api w).1 = (None, Some (e "/info")) ∧ trace (Info api w).2 = trace w)
  ∧ ((Tips api w).1 = (None, Some (e "/tips")) ∧ trace (Tips api w).2 = trace w)
  ∧ AreMessagesReferencedByMilestone api hashes w =
    ((None, Some (e (AreMessagesReferencedByMilestone_query hashes))), w)
  ∧ AreTransactionsReferencedByMilestone api hashes w =
    ((None, Some (e (AreTransactionsReferencedByMilestone_query hashes))), w)
  ∧ OutputsByHash api hashes w = ((None, Some (e (OutputsByHash_query hashes))), w)
  ∧ (∀ (Message JSONNodeMessages : Type) (zero : JSONNodeMessages)
       (ToMessages : JSONNodeMessages → slice Message * option error),
       MessagesByHash zero ToMessages api hashes w =
       ((None, Some (e (MessagesByHash_query hashes))), w)).
Proof.
  intros Hbad api e.
  assert (Hdo : ∀ route target w',
            do api MethodGet route INil target w' = (Some (e route), w')).
  { intros. rewrite do_bare. unfold api. by rewrite NewNodeAPI_BaseURL, Hbad. }
  rewrite Info_unfold, Tips_unfold, AreMessagesReferencedByMilestone_unfold,
    AreTransactionsReferencedByMilestone_unfold, OutputsByHash_unfold.
  simpl. rewrite !Hdo. simpl. repeat split.
  intros. rewrite MessagesByHash_unfold. simpl. by rewrite Hdo.
Qed.

Lemma do_bare_2xx api route target w req res :
  target ≠ INil →
  http_NewRequest MethodGet (BaseURL api ++ route) None = Ok req →
  HTTPClient api req = Ok res →
  stream_error (Body res) = None →
  StatusCode res = 200 ∨ StatusCode res = 201 →
  let data := stream_bytes (Body res) in
  let decoded := json_Unmarshal_ok data {| Data := target |} (heap w) in
  do api MethodGet route INil target w =
  (External FromJSON <$> decoded.1,
   {| heap := decoded.2;
      trace := trace w ++ [EvDo req; EvReadAll (Body res);
                           EvUnmarshalOk data {| Data := target |}; EvClose (Body res)] |}).
Proof.
  intros Htarget Hreq Hres Hread Hstatus data decoded.
  rewrite do_bare, Hreq, Hres, (is_nil_false _ Htarget).
  rewrite (interpretBody_success _ _ _ Hread Hstatus). simpl.
  by rewrite <- app_assoc.
Qed.

(** The request cycle of an endpoint returns a nil error exactly when it
    succeeds in the sense of [cycle_succeeds]. *)
Lemma do_bare_success_iff api route target w :
  target ≠ INil →
  (do api MethodGet route INil target w).1 = None
  ↔ cycle_succeeds api route target (heap w).
Proof.
  intros Htarget. split.
  - rewrite do_bare.
    destruct (http_NewRequest MethodGet (BaseURL api ++ route) None)
      as [req|msg] eqn:Hreq; [|discriminate].
    destruct (HTTPClient api req) as [res|msg] eqn:Hres; [|discriminate].
    rewrite (is_nil_false _ Htarget).
    destruct (interpretBody_paths res target (sent w req))
      as [(m & _ & ->)|[(Hread & Hstatus & ->)|(_ & _ & _ & e & -> & _)]]; simpl;
      [discriminate| |discriminate].
    intros Hok. exists req, res. repeat split; try done.
    by destruct (json_Unmarshal_ok _ _ _).1.
  - intros (req & res & Hreq & Hres & Hread & Hstatus & Hdec).
    rewrite (do_bare_2xx _ _ _ _ _ _ Htarget Hreq Hres Hread Hstatus). simpl.
    by rewrite Hdec.
Qed.

Lemma do_bare_failure api route target w :
  target ≠ INil →
  ¬ cycle_succeeds api route target (heap w) →
  is_Some (do api MethodGet route INil target w).1.
Proof.
  intros Htarget Hfails.
  destruct (do api MethodGet route INil target w).1 as [e|] eqn:Hdo; [by eexists|].
  destruct Hfails. by apply (do_bare_success_iff _ _ _ _ Htarget).
Qed.

(** C9, as amended.  No endpoint hands back a result together with an
    error, and an endpoint returns a nil error exactly when its request
    cycle succeeds: the request is built, the node answers 200 or 201, the
    body is read to its end and the success envelope decodes without error.
    [Info] and [Tips] return the nil pointer exactly when they return an
    error; when the error is nil they return the pointer to their own
    response object, a cell that did not exist before the call, and the heap
    is what the decoder made of that zero-valued object.  The slice endpoints
    return the nil slice whenever they return an error.  [MessagesByHash]
    returns the nil slice and an error when its cycle does not succeed and
    the outcome of [ToMessages] when it does, so that it returns no result
    beside an error whenever [ToMessages] returns none. *)
Theorem endpoints_result_or_error (api : NodeAPI) (w : World) (hashes : list Hash) :
  let p := List.length (heap w) in
  let info0 := (heap w ++ [VNodeInfoResponse zero_NodeInfoResponse])%list in
  let tips0 := (heap w ++ [VNodeTipsResponse zero_NodeTipsResponse])%list in
  (((Info api w).1.2 = None ↔ cycle_succeeds api "/info" (IPtr p) info0)
   ∧ ((Info api w).1.1 = None ↔ is_Some (Info api w).1.2)
   ∧ ((Info api w).1.2 = None → (Info api w).1.1 = Some p ∧ heap w !! p = None)
   ∧ (∀ req res,
        http_NewRequest MethodGet (BaseURL api ++ "/info") None = Ok req →
        HTTPClient api req = Ok res →
        stream_error (Body res) = None →
        StatusCode res = 200 ∨ StatusCode res = 201 →
        heap (Info api w).2 =
        (json_Unmarshal_ok (stream_bytes (Body res)) {| Data := IPtr p |} info0).2))
  ∧ (((Tips api w).1.2 = None ↔ cycle_succeeds api "/tips" (IPtr p) tips0)
     ∧ ((Tips api w).1.1 = None ↔ is_Some (Tips api w).1.2)
     ∧ ((Tips api w).1.2 = None → (Tips api w).1.1 = Some p ∧ heap w !! p = None)
     ∧ (∀ req res,
          http_NewRequest MethodGet (BaseURL api ++ "/tips") None = Ok req →
          HTTPClient api req = Ok res →
          stream_error (Body res) = None →
          StatusCode res = 200 ∨ StatusCode res = 201 →
          heap (Tips api w).2 =
          (json_Unmarshal_ok (stream_bytes (Body res)) {| Data := IPtr p |} tips0).2))
  ∧ (((AreMessagesReferencedByMilestone api hashes w).1.2 = None
      ↔ cycle_succeeds api (AreMessagesReferencedByMilestone_query hashes)
          (IVal (VReferenced None)) (heap w))
     ∧ (is_Some (AreMessagesReferencedByMilestone api hashes w).1.2 →
        (AreMessagesReferencedByMilestone api hashes w).1.1 = None))
  ∧ (((AreTransactionsReferencedByMilestone api hashes w).1.2 = None
      ↔ cycle_succeeds api (AreTransactionsReferencedByMilestone_query hashes)
          (IVal (VReferenced None)) (heap w))
     ∧ (is_Some (AreTransactionsReferencedByMilestone api hashes w).1.2 →
        (AreTransactionsReferencedByMilestone api hashes w).1.1 = None))
  ∧ (((OutputsByHash api hashes w).1.2 = None
      ↔ cycle_succeeds api (OutputsByHash_query hashes) (IVal (VOutputs None)) (heap w))
     ∧ (is_Some (OutputsByHash api hashes w).1.2 →
        (OutputsByHash api hashes w).1.1 = None))
  ∧ (∀ (Message JSONNodeMessages : Type) (zero : JSONNodeMessages)
       (ToMessages : JSONNodeMessages → slice Message * option error),
       let succeeds := cycle_succeeds api (MessagesByHash_query hashes)
                         (IVal VJSONNodeMessages) (heap w) in
       let r := (MessagesByHash zero ToMessages api hashes w).1 in
       (¬ succeeds → ∃ err, r = (None, Some err))
       ∧ (succeeds → ∃ m, r = ToMessages m)
       ∧ ((∀ m, is_Some (ToMessages m).2 → (ToMessages m).1 = None) →
          is_Some r.2 → r.1 = None)).
Proof.
  intros p info0 tips0.
  assert (Hptr : ∀ route h0,
            let r := do api MethodGet route INil (IPtr p) {| heap := h0; trace := trace w |} in
            let out : option addr * option error :=
              match r.1 with
              | Some err => (None, Some err)
              | None => (Some p, None)
              end in
            (out.2 = None ↔ cycle_succeeds api route (IPtr p) h0)
            ∧ (out.1 = None ↔ is_Some out.2)
            ∧ (out.2 = None → out.1 = Some p ∧ heap w !! p = None)).
  { intros route h0 r out.
    assert (IPtr p ≠ INil) as Hp by discriminate.
    pose proof (do_bare_success_iff api route (IPtr p) {| heap := h0; trace := trace w |}
                  Hp) as Hiff.
    fold r in Hiff. subst out. clearbody r. destruct r as [[e|] w']; simpl in *.
    - split; [|split].
      + split; [discriminate|]. intros Hs. by apply Hiff in Hs.
      + split; [intros _; by eexists|done].
      + discriminate.
    - split; [|split].
      + split; [intros _; by apply Hiff|done].
      + split; [discriminate|]. by intros [? ?].
      + intros _. split; [done|]. by apply lookup_ge_None_2. }
  assert (Hheap : ∀ route h0 req res,
            http_NewRequest MethodGet (BaseURL api ++ route) None = Ok req →
            HTTPClient api req = Ok res →
            stream_error (Body res) = None →
            StatusCode res = 200 ∨ StatusCode res = 201 →
            heap (do api MethodGet route INil (IPtr p) {| heap := h0; trace := trace w |}).2 =
            (json_Unmarshal_ok (stream_bytes (Body res)) {| Data := IPtr p |} h0).2).
  { intros route h0 req res Hreq Hres Hread Hstatus.
    assert (IPtr p ≠ INil) as Hp by discriminate.
    by rewrite (do_bare_2xx api route (IPtr p) {| heap := h0; trace := trace w |}
                  req res Hp Hreq Hres Hread Hstatus). }
  assert (Hval : ∀ route target,
            target ≠ INil →
            let r := do api MethodGet route INil target w in
            (r.1 = None ↔ cycle_succeeds api route target (heap w)))
    by (intros; by apply do_bare_success_iff).
  rewrite Info_unfold, Tips_unfold, AreMessagesReferencedByMilestone_unfold,
    AreTransactionsReferencedByMilestone_unfold, OutputsByHash_unfold.
  cbv zeta. fold p info0 tips0.
  split; [|split; [|split; [|split; [|split]]]].
  - destruct (Hptr "/info" info0) as (H1 & H2 & H3).
    split; [exact H1|]. split; [exact H2|]. split; [exact H3|].
    intros req res Hreq Hres Hread Hstatus. simpl. by eapply Hheap.
  - destruct (Hptr "/tips" tips0) as (H1 & H2 & H3).
    split; [exact H1|]. split; [exact H2|]. split; [exact H3|].
    intros req res Hreq Hres Hread Hstatus. simpl. by eapply Hheap.
  - split; [apply Hval; discriminate|done].
  - split; [apply Hval; discriminate|done].
  - split; [apply Hval; discriminate|done].
  - intros Message JSONNodeMessages zero ToMessages.
    rewrite MessagesByHash_unfold. cbv zeta. simpl.
    assert (IVal VJSONNodeMessages ≠ INil) as Hv by discriminate.
    pose proof (Hval (MessagesByHash_query hashes) (IVal VJSONNodeMessages) Hv) as Hiff.
    simpl in Hiff.
    destruct (do api MethodGet (MessagesByHash_query hashes) INil
                (IVal VJSONNodeMessages) w).1 as [e|]; simpl.
    + split; [intros _; by eexists|]. split; [|done].
      intros Hs. by apply Hiff in Hs.
    + split; [intros Hn; destruct Hn; by apply Hiff|].
      split; [intros _; by eexists|]. intros Hall. apply Hall.
Qed.

End Coverage.

(** ** Closed examples for the further properties *)

(** A base URL with a line feed in it: no request can be built, and the call
    returns that error with the world untouched. *)
Lemma do_preparation_error_witness :
  let node := NewNodeAPI (Mock.refuse "no transport")
                ("http://node" ++ String "010"%char EmptyString) [Mock.answer 200 ""] in
  do (H := Reference.runtime) node "GET" "/info" INil (IPtr 0%nat) Mock.w1 =
  (Some (External FromNewRequest "net/url: invalid control character in URL"), Mock.w1)
  ∧ (∀ k, errors_Is (External FromNewRequest "net/url: invalid control character in URL")
            (Sentinel k) = false).
Proof.
  intros node.
  refine (do_preparation_error (H := Reference.runtime) node "GET" "/info" INil
            (IPtr 0%nat) Mock.w1 FromNewRequest
            "net/url: invalid control character in URL" _).
  apply request_fails_bare. vm_compute. reflexivity.
Defined.

(** A POST with a pair of tips as its request object. *)
Lemma do_payload_content_type_witness :
  let tips := IVal (VNodeTipsResponse {| Tip1 := "aa"; Tip2 := "bb" |}) in
  let data := Reference.json_text
                (Reference.JObject [("tip1", Reference.JString "aa");
                                    ("tip2", Reference.JString "bb")]) in
  let req0 := {| Method := "POST"; URL := "http://node:14265/tips"; Header := [];
                 ReqBody := Some data |} in
  ∃ req rest,
    trace (do (H := Reference.runtime) (Mock.node (Mock.answer 201 ""))
              "POST" "/tips" tips INil Mock.w0).2 = (trace Mock.w0 ++ EvDo req :: rest)%list
    ∧ Header_Get (Header req) "Content-Type" = "application/json"
    ∧ (∀ key, key ≠ "Content-Type" →
              Header_Get (Header req) key = Header_Get (Header req0) key)
    ∧ Method req = Method req0 ∧ URL req = URL req0 ∧ ReqBody req = ReqBody req0.
Proof.
  intros tips data req0.
  refine (do_payload_content_type (H := Reference.runtime)
            (Mock.node (Mock.answer 201 "")) "POST" "/tips" tips INil Mock.w0
            data req0 _ _ _).
  - discriminate.
  - vm_compute. reflexivity.
  - vm_compute. reflexivity.
Defined.

(** A 404 whose body breaks off while it is read. *)
Lemma do_read_error_witness :
  let res := {| StatusCode := 404;
                Body := {| stream_bytes := ""; stream_error := Some "unexpected EOF" |};
                Req := Mock.request "/info" |} in
  do (H := Reference.runtime) (Mock.node (Mock.broken_body 404 "unexpected EOF"))
     "GET" "/info" INil (IPtr 0%nat) Mock.w1 =
  (Some (wrapError ("unable to read response body: " ++ "unexpected EOF")
           (External FromRead "unexpected EOF")),
   {| heap := heap Mock.w1;
      trace := trace Mock.w1 ++ [EvDo (Mock.request "/info"); EvReadAll (Body res)] |})
  ∧ (∀ k, errors_Is (wrapError ("unable to read response body: " ++ "unexpected EOF")
                       (External FromRead "unexpected EOF")) (Sentinel k) = false).
Proof.
  intros res.
  refine (do_read_error (H := Reference.runtime)
            (Mock.node (Mock.broken_body 404 "unexpected EOF"))
            "GET" "/info" INil (IPtr 0%nat) Mock.w1 (Mock.request "/info") res
            "unexpected EOF" _ _ _ _).
  - apply sends_bare. reflexivity.
  - reflexivity.
  - discriminate.
  - reflexivity.
Defined.

(** [Info] against a node that answers 404 with an error envelope. *)
Lemma endpoints_status_error_witness :
  let node := Mock.node (Mock.answer 404 (Mock.error_body 404 "no such route")) in
  (Info (H := Reference.runtime) node Mock.w0).1.1 = None
  ∧ status_failure 404 "no such route" (Info (H := Reference.runtime) node Mock.w0).1.2.
Proof.
  intros node.
  refine (proj1 (endpoints_status_error (H := Reference.runtime) node 404
                   {| stream_bytes := Mock.error_body 404 "no such route";
                      stream_error := None |}
                   {| Error := {| Code := 404; Message := "no such route" |} |}
                   Mock.w0 [] _ _ _ _ _)).
  - intros req. eexists. repeat split.
  - reflexivity.
  - lia.
  - lia.
  - vm_compute. reflexivity.
Defined.

(** The reference runtime writes through pointers only, and the endpoints
    that pass their result by value leave a heap with one object in it
    alone, against a node that answers 200 with three statuses. *)
Lemma value_endpoints_keep_heap_witness :
  let node := Mock.node (Mock.answer 200 Mock.three_statuses) in
  heap (AreMessagesReferencedByMilestone (H := Reference.runtime)
          node Mock.three_hashes Mock.w1).2 = heap Mock.w1
  ∧ heap (AreTransactionsReferencedByMilestone (H := Reference.runtime)
            node Mock.three_hashes Mock.w1).2 = heap Mock.w1
  ∧ heap (OutputsByHash (H := Reference.runtime) node Mock.three_hashes Mock.w1).2
    = heap Mock.w1
  ∧ (∀ (Message JSONNodeMessages : Type) (zero : JSONNodeMessages)
       (ToMessages : JSONNodeMessages → slice Message * option error),
       heap (MessagesByHash (H := Reference.runtime) zero ToMessages
               node Mock.three_hashes Mock.w1).2 = heap Mock.w1).
Proof.
  intros node.
  apply (value_endpoints_keep_heap (H := Reference.runtime) node Mock.three_hashes Mock.w1).
  intros data target h Hnoptr. by apply Unmarshal_ok_no_pointer.
Defined.

(** [Info] against a node that answers 200 with a name and a peer count: the
    new object sits at address 1, behind the one the caller held, and has
    the two fields set and the others zero. *)
Lemma Info_fresh_object_witness :
  let node := Mock.node (Mock.answer 200 (Mock.data_body
                (Reference.JObject [("name", Reference.JString "hornet");
                                    ("peers", Reference.JNumber 8)]))) in
  let r := Info (H := Reference.runtime) node Mock.w1 in
  r.1 = (Some 1%nat, None)
  ∧ heap r.2 !! 0%nat = Some (VNodeInfoResponse zero_NodeInfoResponse)
  ∧ heap r.2 !! 1%nat =
    Some (VNodeInfoResponse
            {| Name := "hornet"; Version := ""; IsHealthy := false;
               OperatingNetwork := ""; Peers := 8; CoordinatorAddress := "";
               IsSynced := false; LatestMilestoneHash := ""; LatestMilestoneIndex := 0;
               LatestSolidMilestoneHash := ""; LatestSolidMilestoneIndex := 0;
               PruningIndex := 0; Time := 0; Features := None |}).
Proof.
  intros node r.
  destruct (Info_fresh_object (H := Reference.runtime) node Mock.w1
              (Mock.request "/info")
              (Mock.response 200 (Mock.data_body
                 (Reference.JObject [("name", Reference.JString "hornet");
                                     ("peers", Reference.JNumber 8)])) "/info")
              ltac:(reflexivity) ltac:(reflexivity) ltac:(reflexivity)
              ltac:(left; reflexivity)) as (_ & _ & Hinfo).
  subst r. rewrite Hinfo. vm_compute. repeat split.
Defined.

(** [Tips] against a node that answers 201 with two tips. *)
Lemma Tips_fresh_object_witness :
  let node := Mock.node (Mock.answer 201 (Mock.data_body
                (Reference.JObject [("tip1", Reference.JString "aa");
                                    ("tip2", Reference.JString "bb")]))) in
  let r := Tips (H := Reference.runtime) node Mock.w0 in
  r.1 = (Some 0%nat, None)
  ∧ heap r.2 = [VNodeTipsResponse {| Tip1 := "aa"; Tip2 := "bb" |}].
Proof.
  intros node r.
  destruct (Tips_fresh_object (H := Reference.runtime) node Mock.w0
              (Mock.request "/tips")
              (Mock.response 201 (Mock.data_body
                 (Reference.JObject [("tip1", Reference.JString "aa");
                                     ("tip2", Reference.JString "bb")])) "/tips")
              ltac:(reflexivity) ltac:(reflexivity) ltac:(reflexivity)
              ltac:(right; reflexivity)) as (_ & _ & Htips).
  subst r. rewrite Htips. vm_compute. repeat split.
Defined.

(** A client built for a base URL with a line feed in it, on three hashes. *)
Lemma endpoints_unbuildable_request_witness :
  let api := NewNodeAPI (Mock.refuse "no transport")
               ("http://node" ++ String "010"%char EmptyString) [Mock.answer 200 ""] in
  let e := External FromNewRequest "net/url: invalid control character in URL" in
  ((Info (H := Reference.runtime) api Mock.w0).1 = (None, Some e)
   ∧ trace (Info (H := Reference.runtime) api Mock.w0).2 = trace Mock.w0)
  ∧ ((Tips (H := Reference.runtime) api Mock.w0).1 = (None, Some e)
     ∧ trace (Tips (H := Reference.runtime) api Mock.w0).2 = trace Mock.w0)
  ∧ AreMessagesReferencedByMilestone (H := Reference.runtime) api Mock.three_hashes Mock.w0
    = ((None, Some e), Mock.w0)
  ∧ AreTransactionsReferencedByMilestone (H := Reference.runtime) api Mock.three_hashes
      Mock.w0 = ((None, Some e), Mock.w0)
  ∧ OutputsByHash (H := Reference.runtime) api Mock.three_hashes Mock.w0
    = ((None, Some e), Mock.w0)
  ∧ (∀ (Message JSONNodeMessages : Type) (zero : JSONNodeMessages)
       (ToMessages : JSONNodeMessages → slice Message * option error),
       MessagesByHash (H := Reference.runtime) zero ToMessages api Mock.three_hashes Mock.w0
       = ((None, Some e), Mock.w0)).
Proof.
  intros api e.
  refine (endpoints_unbuildable_request (H := Reference.runtime)
            (Mock.refuse "no transport")
            ("http://node" ++ String "010"%char EmptyString) [Mock.answer 200 ""]
            (λ _, "net/url: invalid control character in URL")
            Mock.w0 Mock.three_hashes _).
  intros route. reflexivity.
Defined.

(** C9 fails as stated: against a node that answers 200 with the body [{}]
    [Info] returns a nil error and a pointer, and the object behind the
    pointer is not populated: it is the zero value it was created with. *)
Lemma Info_success_not_populated :
  let r := Info (H := Reference.runtime) (Mock.node (Mock.answer 200 "{}")) Mock.w0 in
  r.1 = (Some 0%nat, None)
  ∧ heap r.2 !! 0%nat = Some (VNodeInfoResponse zero_NodeInfoResponse).
Proof. vm_compute. split; reflexivity. Qed.
